(** * BookStore data-mining project: the crawl-and-extract engine

    A shallow embedding of [book_scraper.py] (class [BookScraper]) and the
    properties of its extraction and pagination logic.

    Layout of the development:
    - [PyStr]: the Python string operations the scraper calls
      ([str.strip], [in], [str.replace], [str.lower], the two regular
      expressions, [int] and [float]);
    - [Bs4]: parsed documents and the BeautifulSoup queries the scraper issues;
    - [Scraper]: [get_soup], [extract_book_data], [scrape_category] and
      [scrape_all_categories], with the HTTP requests and the courtesy
      delays recorded as a trace of events;
    - [Fixtures]: concrete catalogues;
    - the notions used in the statements;
    - [Analysis]: [save_to_csv], the summary of [analyze_data] and the main
      program;
    - facts about the string operations, the crawl and the extraction;
    - the properties of the extraction and of the category crawl;
    - further properties of the extraction, the crawl, the page addresses,
      the crawl of all categories and the main program.

    Conventions.  A Python [str] is a [string] of UTF-8 code units; the
    character classes of the scraper ([0-9], [.], white space, [A-Z]) are
    ASCII, so filtering and searching on code units agrees with Python on
    code points (the non-ASCII Unicode digits and spaces that [\d] and
    [str.strip] also accept are outside the model).  A Python [float]
    obtained from a decimal literal is represented by the exact rational
    the literal denotes, in lowest terms; binary64 rounding is a function
    of that rational and is not modelled.  Python integers are [Z].

    The site is a function from addresses to responses, so a request always
    has an answer: the exceptions that [requests] raises for a connection
    that cannot be made are outside the model, as are the messages printed
    on the console and the progress bar.  The [while True] loop of
    [scrape_category] need not end; its model takes the number of listing
    pages it may visit. *)

From Stdlib Require Import Ascii QArith.
From stdpp Require Import base option list strings gmap pretty numbers.

Close Scope Q_scope.

(** ** Exceptions and results *)

(** The built-in exceptions that the scraper's expressions can raise. *)
Inductive exn : Set :=
| AttributeError   (* attribute access on [None] *)
| TypeError        (* subscripting [None] *)
| KeyError         (* missing dictionary / attribute key *)
| IndexError       (* list index out of range *)
| ValueError.      (* [float] of a malformed literal *)

Global Instance exn_eq_dec : EqDecision exn.
Proof. solve_decision. Defined.

(** Evaluation of a Python expression: a value, or a raised exception. *)
Inductive result (A : Type) : Type :=
| Ok (a : A)
| Raise (e : exn).
Global Arguments Ok {A} a.
Global Arguments Raise {A} e.

Global Instance result_ret : MRet result := λ A a, Ok a.
Global Instance result_bind : MBind result := λ A B f m,
  match m with
  | Ok a => f a
  | Raise e => Raise e
  end.

(** [o.attr] where [o] may be [None]: the access raises [e] on [None]. *)
Definition unwrap {A} (e : exn) (o : option A) : result A :=
  match o with
  | Some a => Ok a
  | None => Raise e
  end.

Definition is_ok {A} (r : result A) : bool :=
  match r with Ok _ => true | Raise _ => false end.

(** ** Python strings *)

Module PyStr.

(** ASCII part of [str.isspace]. *)
Definition isspace (c : ascii) : bool :=
  let n := Ascii.N_of_ascii c in
  ((9 <=? n) && (n <=? 13) || (28 <=? n) && (n <=? 32))%N.

Definition isdigit (c : ascii) : bool :=
  let n := Ascii.N_of_ascii c in
  ((48 <=? n) && (n <=? 57))%N.

Definition digit_value (c : ascii) : Z :=
  Z.of_N (Ascii.N_of_ascii c) - 48.

Definition is_dot (c : ascii) : bool := bool_decide (c = "."%char).

Fixpoint filter (f : ascii → bool) (s : string) : string :=
  match s with
  | EmptyString => EmptyString
  | String c s' => if f c then String c (filter f s') else filter f s'
  end.

Fixpoint forallb (f : ascii → bool) (s : string) : bool :=
  match s with
  | EmptyString => true
  | String c s' => f c && forallb f s'
  end.

(** [s.lstrip()], [s.rstrip()] and [s.strip()]. *)
Fixpoint lstrip (s : string) : string :=
  match s with
  | EmptyString => EmptyString
  | String c s' => if isspace c then lstrip s' else s
  end.

Fixpoint rstrip (s : string) : string :=
  match s with
  | EmptyString => EmptyString
  | String c s' =>
      match rstrip s' with
      | EmptyString => if isspace c then EmptyString else String c EmptyString
      | t => String c t
      end
  end.

Definition strip (s : string) : string := rstrip (lstrip s).

(** [s.startswith(p)]. *)
Fixpoint startswith (p s : string) : bool :=
  match p, s with
  | EmptyString, _ => true
  | String a p', String b s' => bool_decide (a = b) && startswith p' s'
  | String _ _, EmptyString => false
  end.

(** [sub in s]. *)
Fixpoint contains (sub s : string) : bool :=
  startswith sub s ||
  match s with
  | EmptyString => false
  | String _ s' => contains sub s'
  end.

(** [s.replace(old, new)] for a non-empty [old]: occurrences are replaced
    from the left and do not overlap.  [skip] counts the characters of a
    replaced occurrence that remain to be dropped. *)
Fixpoint replace_from (old new : string) (skip : nat) (s : string) : string :=
  match s with
  | EmptyString => EmptyString
  | String c s' =>
      match skip with
      | S k => replace_from old new k s'
      | O =>
          if startswith old s
          then new +:+ replace_from old new (String.length old - 1) s'
          else String c (replace_from old new 0 s')
      end
  end.

Definition replace (old new s : string) : string := replace_from old new 0 s.

(** [s.lower()] on the ASCII letters. *)
Definition lower_char (c : ascii) : ascii :=
  let n := Ascii.N_of_ascii c in
  if ((65 <=? n) && (n <=? 90))%N then Ascii.ascii_of_N (n + 32) else c.

Fixpoint lower (s : string) : string :=
  match s with
  | EmptyString => EmptyString
  | String c s' => String (lower_char c) (lower s')
  end.

(** [re.sub(r'[^0-9\.]', '', s)]: every character that is neither a digit
    nor a dot is deleted. *)
Definition sub_non_numeric (s : string) : string :=
  filter (λ c, isdigit c || is_dot c) s.

(** The longest prefix of digits, and what follows it. *)
Fixpoint span_digits (s : string) : string * string :=
  match s with
  | EmptyString => (EmptyString, EmptyString)
  | String c s' =>
      if isdigit c
      then let '(ds, rest) := span_digits s' in (String c ds, rest)
      else (EmptyString, s)
  end.

(** [re.search(r'(\d+) available', s)]: group 1 of the leftmost match, or
    [None].  At a given start the greedy [\d+] can only be followed by the
    space of the pattern once it has consumed the whole run of digits. *)
Fixpoint search_available (s : string) : option string :=
  match s with
  | EmptyString => None
  | String _ s' =>
      let '(ds, rest) := span_digits s in
      if negb (bool_decide (ds = EmptyString)) && startswith " available" rest
      then Some ds
      else search_available s'
  end.

(** [int(s)] for a string of decimal digits. *)
Fixpoint int_from (acc : Z) (s : string) : Z :=
  match s with
  | EmptyString => acc
  | String c s' => int_from (10 * acc + digit_value c) s'
  end.

Definition int_of_digits (s : string) : Z := int_from 0 s.

(** Splitting at the first dot. *)
Fixpoint split_dot (s : string) : string * option string :=
  match s with
  | EmptyString => (EmptyString, None)
  | String c s' =>
      if is_dot c then (EmptyString, Some s')
      else let '(a, b) := split_dot s' in (String c a, b)
  end.

Fixpoint pow10 (n : nat) : positive :=
  match n with
  | O => 1
  | S n' => 10 * pow10 n'
  end%positive.

(** [float(s)] for a string made of digits and dots only (what
    [sub_non_numeric] leaves): the literal must have at least one digit and
    at most one dot, otherwise [float] raises [ValueError]. *)
Definition float (s : string) : result Q :=
  let '(ip, fp) := split_dot s in
  let fp' := default EmptyString fp in
  if forallb isdigit ip && forallb isdigit fp' &&
     negb (bool_decide (ip +:+ fp' = EmptyString))
  then Ok (Qred (int_of_digits (ip +:+ fp') # pow10 (String.length fp')))
  else Raise ValueError.

End PyStr.

(** ** Parsed documents and the BeautifulSoup queries *)

Module Bs4.

(** A parsed document is a tree of tags and text; the attributes of a tag
    are kept as the strings of the markup ([class] is split on access). *)
#[warning="-register-all"] Inductive node : Type :=
| NavigableString (s : string)
| Tag (name : string) (attrs : gmap string string) (contents : list node).

Definition is_named (nm : string) (n : node) : bool :=
  match n with
  | Tag nm' _ _ => bool_decide (nm' = nm)
  | NavigableString _ => false
  end.

(** [tag.get(key)]. *)
Definition get_attr (key : string) (n : node) : option string :=
  match n with
  | Tag _ attrs _ => attrs !! key
  | NavigableString _ => None
  end.

(** [tag[key]]: [KeyError] when the attribute is missing. *)
Definition getitem (key : string) (n : node) : result string :=
  unwrap KeyError (get_attr key n).

(** White-space separated words of an attribute value. *)
Fixpoint words_from (cur : string) (s : string) : list string :=
  match s with
  | EmptyString => if bool_decide (cur = EmptyString) then [] else [cur]
  | String c s' =>
      if PyStr.isspace c
      then (if bool_decide (cur = EmptyString) then [] else [cur]) ++ words_from EmptyString s'
      else words_from (cur +:+ String c EmptyString) s'
  end.

(** [tag['class']] as BeautifulSoup stores it: the list of class names
    (empty when the tag has no [class] attribute). *)
Definition class_list (n : node) : list string :=
  match get_attr "class" n with
  | Some v => words_from EmptyString v
  | None => []
  end.

Fixpoint join (sep : string) (l : list string) : string :=
  match l with
  | [] => EmptyString
  | [x] => x
  | x :: l' => x +:+ sep +:+ join sep l'
  end.

(** The [class_=c] filter of [find]: [c] is one of the tag's classes, or
    [c] is the whole class list joined by single spaces. *)
Definition has_class (c : string) (n : node) : bool :=
  match get_attr "class" n with
  | Some _ =>
      bool_decide (c ∈ class_list n) || bool_decide (join " " (class_list n) = c)
  | None => false
  end.

(** [tag.descendants]: every node below [n], in document order. *)
Fixpoint descendants (n : node) : list node :=
  match n with
  | NavigableString _ => []
  | Tag _ _ cs =>
      (fix below (l : list node) : list node :=
         match l with
         | [] => []
         | c :: l' => c :: descendants c ++ below l'
         end) cs
  end.

(** [tag.text]: the text nodes below [n], concatenated. *)
Fixpoint text (n : node) : string :=
  match n with
  | NavigableString s => s
  | Tag _ _ cs =>
      (fix texts (l : list node) : string :=
         match l with
         | [] => EmptyString
         | c :: l' => text c +:+ texts l'
         end) cs
  end.

(** [tag.string]: the single text node reachable through only children. *)
Fixpoint string_of (n : node) : option string :=
  match n with
  | NavigableString s => Some s
  | Tag _ _ [c] => string_of c
  | Tag _ _ _ => None
  end.

(** The first node of a document-order stream that satisfies [p], together
    with the nodes that follow it (its [next_elements]). *)
Fixpoint locate (p : node → bool) (l : list node) : option (node * list node) :=
  match l with
  | [] => None
  | n :: l' => if p n then Some (n, l') else locate p l'
  end.

Definition first_of (p : node → bool) (l : list node) : option node :=
  fst <$> locate p l.

(** [soup.find(name, class_=c)]. *)
Definition find (nm c : string) (soup : node) : option node :=
  first_of (λ n, is_named nm n && has_class c n) (descendants soup).

(** [tag.<name>], e.g. [tag.h1]: the first descendant tag of that name. *)
Definition child_tag (nm : string) (n : node) : option node :=
  first_of (is_named nm) (descendants n).

(** [soup.find(name, text=t)], keeping the nodes after the match so that
    [find_next] can be applied to it. *)
Definition find_text (nm t : string) (soup : node) : option (node * list node) :=
  locate (λ n, is_named nm n && bool_decide (string_of n = Some t)) (descendants soup).

(** [tag.find_next(name)] on the stream of nodes after [tag]. *)
Definition find_next (nm : string) (after : list node) : option node :=
  first_of (is_named nm) after.

(** *** CSS selectors *)

(** A compound selector: [tag], [tag.class] or [#id]. *)
Record compound : Type := Compound {
  sel_tag : option string;
  sel_id : option string;
  sel_class : option string
}.

Definition tag_sel (t : string) : compound := Compound (Some t) None None.
Definition tag_class_sel (t c : string) : compound := Compound (Some t) None (Some c).
Definition id_sel (i : string) : compound := Compound None (Some i) None.

Definition opt_holds {A} (p : A → bool) (o : option A) : bool :=
  match o with Some a => p a | None => true end.

Definition matches (c : compound) (n : node) : bool :=
  match n with
  | NavigableString _ => false
  | Tag nm _ _ =>
      opt_holds (λ t, bool_decide (nm = t)) (sel_tag c) &&
      opt_holds (λ i, bool_decide (get_attr "id" n = Some i)) (sel_id c) &&
      opt_holds (λ k, bool_decide (k ∈ class_list n)) (sel_class c)
  end.

(** A node in its context: the ancestors (outermost first) and the
    siblings that precede it. *)
Record placed : Type := Placed {
  ancestors : list node;
  preceding : list node;
  the_node : node
}.

Fixpoint walk (anc prev : list node) (n : node) : list placed :=
  Placed anc prev n ::
  match n with
  | NavigableString _ => []
  | Tag _ _ cs =>
      (fix inside (prev' l : list node) : list placed :=
         match l with
         | [] => []
         | c :: l' => walk (anc ++ [n]) prev' c ++ inside (prev' ++ [c]) l'
         end) [] cs
  end.

(** The nodes below the root of the document, each in its context. *)
Definition placed_descendants (soup : node) : list placed :=
  match soup with
  | NavigableString _ => []
  | Tag _ _ cs =>
      (fix inside (prev' l : list node) : list placed :=
         match l with
         | [] => []
         | c :: l' => walk [] prev' c ++ inside (prev' ++ [c]) l'
         end) [] cs
  end.

(** [chain] is matched, in order, by some of the ancestors [anc]
    (descendant combinators): taking the outermost match first loses no
    solution. *)
Fixpoint within (chain : list compound) (anc : list node) : bool :=
  match chain, anc with
  | [], _ => true
  | _ :: _, [] => false
  | c :: chain', a :: anc' =>
      if matches c a then within chain' anc' else within chain anc'
  end.

(** [soup.select('c1 c2 ... subject')]. *)
Definition select (chain : list compound) (subject : compound) (soup : node) : list node :=
  the_node <$>
    List.filter (λ p, matches subject (the_node p) && within chain (ancestors p))
                (placed_descendants soup).

Definition select_one (chain : list compound) (subject : compound) (soup : node) : option node :=
  head (select chain subject soup).

(** [soup.select_one('c1 ~ subject')]: the first [subject] that has an
    earlier sibling matching [c1]. *)
Definition select_one_sibling (c1 subject : compound) (soup : node) : option node :=
  head (the_node <$>
    List.filter (λ p, matches subject (the_node p) && existsb (matches c1) (preceding p))
                (placed_descendants soup)).

End Bs4.

(** ** The scraper *)

Module Scraper.
Import Bs4.
Local Open Scope Z_scope.

(** The dictionary returned by [extract_book_data]. *)
Record book : Type := Book {
  title : string;
  price : Q;
  rating : Z;
  availability : bool;
  stock_count : Z;
  description : string;
  category : string;
  upc : string;
  url : string
}.

Definition rating_map : gmap string Z :=
  <["one" := 1]> (<["two" := 2]> (<["three" := 3]> (<["four" := 4]> (<["five" := 5]> ∅)))).

Definition no_description : string := "No description available".

(** [title = soup.find('div', class_='product_main').h1.text.strip()] *)
Definition title_of (soup : node) : result string :=
  main ← unwrap AttributeError (find "div" "product_main" soup);
  h1 ← unwrap AttributeError (child_tag "h1" main);
  mret (PyStr.strip (text h1)).

(** [price = soup.find('p', class_='price_color').text.strip()] *)
Definition price_text_of (soup : node) : result string :=
  p ← unwrap AttributeError (find "p" "price_color" soup);
  mret (PyStr.strip (text p)).

(** [float(re.sub(r'[^0-9\.]', '', price))] *)
Definition parse_price (price_text : string) : result Q :=
  PyStr.float (PyStr.sub_non_numeric price_text).

(** [availability = soup.find('p', class_='availability').text.strip()] *)
Definition availability_of (soup : node) : result string :=
  p ← unwrap AttributeError (find "p" "availability" soup);
  mret (PyStr.strip (text p)).

(** ["In stock" in availability] *)
Definition in_stock_of (availability_text : string) : bool :=
  PyStr.contains "In stock" availability_text.

(** [stock_text = soup.find('p', class_='instock availability').text.strip()] *)
Definition stock_text_of (soup : node) : result string :=
  p ← unwrap AttributeError (find "p" "instock availability" soup);
  mret (PyStr.strip (text p)).

(** [int(re.search(r'(\d+) available', stock_text).group(1))
     if re.search(r'(\d+) available', stock_text) else 0] *)
Definition stock_count_of (stock_text : string) : Z :=
  match PyStr.search_available stock_text with
  | Some ds => PyStr.int_of_digits ds
  | None => 0
  end.

(** [rating_class = soup.find('p', class_='star-rating')['class'][1].lower()]:
    subscripting [None] is a [TypeError], a one-element class list an
    [IndexError]. *)
Definition rating_class_of (soup : node) : result string :=
  p ← unwrap TypeError (find "p" "star-rating" soup);
  _ ← getitem "class" p;
  c ← unwrap IndexError (class_list p !! 1%nat);
  mret (PyStr.lower c).

(** [rating_map.get(rating_class, 0)] *)
Definition rating_of (rating_class : string) : Z :=
  default 0 (rating_map !! rating_class).

(** [product_description = soup.select_one('#product_description ~ p')] and
    the conditional expression on it: a tag is always truthy. *)
Definition description_of (soup : node) : string :=
  match select_one_sibling (id_sel "product_description") (tag_sel "p") soup with
  | Some p => PyStr.strip (text p)
  | None => no_description
  end.

(** [category = soup.select('ul.breadcrumb li')[2].text.strip()] *)
Definition category_of (soup : node) : result string :=
  li ← unwrap IndexError (select [tag_class_sel "ul" "breadcrumb"] (tag_sel "li") soup !! 2%nat);
  mret (PyStr.strip (text li)).

(** [upc = soup.find('th', text='UPC').find_next('td').text.strip()] *)
Definition upc_of (soup : node) : result string :=
  th ← unwrap AttributeError (find_text "th" "UPC" soup);
  td ← unwrap AttributeError (find_next "td" th.2);
  mret (PyStr.strip (text td)).

(** Lines 36-70 of [extract_book_data]: the fields are computed in the
    order of the source, so the first failing expression decides which
    exception is raised. *)
Definition book_details (soup : node) (book_url : string) : result book :=
  title ← title_of soup;
  price_text ← price_text_of soup;
  price ← parse_price price_text;
  availability ← availability_of soup;
  let in_stock := in_stock_of availability in
  stock_text ← stock_text_of soup;
  let stock_count := stock_count_of stock_text in
  rating_class ← rating_class_of soup;
  let rating := rating_of rating_class in
  let description := description_of soup in
  category ← category_of soup;
  upc ← upc_of soup;
  mret (Book title price rating in_stock stock_count description category upc book_url).

(** *** Effects *)

(** What the scraper does to the outside world: an HTTP request sent by
    [get_soup], and the [time.sleep(0.5)] that follows each book. *)
Inductive event : Type :=
| Get (url : string)
| Sleep.

Global Instance event_eq_dec : EqDecision event.
Proof. solve_decision. Defined.

(** How a call ends: it returns, it raises, or the loop is still running
    when the iteration budget of the model is used up. *)
Inductive outcome (A : Type) : Type :=
| Returns (a : A)
| Raises (e : exn)
| Unfinished.
Global Arguments Returns {A} a.
Global Arguments Raises {A} e.
Global Arguments Unfinished {A}.

(** A call is described by the events it emits, in order, and its outcome. *)
Definition io (A : Type) : Type := list event * outcome A.

Global Instance io_ret : MRet io := λ A a, ([], Returns a).
Global Instance io_bind : MBind io := λ A B f m,
  match m.2 with
  | Returns a => let r := f a in (m.1 ++ r.1, r.2)
  | Raises e => (m.1, Raises e)
  | Unfinished => (m.1, Unfinished)
  end.

Definition emit (e : event) : io () := ([e], Returns ()).

Definition lift {A} (r : result A) : io A :=
  ([], match r with Ok a => Returns a | Raise e => Raises e end).

(** The answer of [session.get]: the status code and the page, already
    parsed. *)
Record response : Type := Response {
  status_code : Z;
  content : node
}.

Definition base_url : string := "http://books.toscrape.com/".

(** [limit and books_count >= limit]: [None] and [0] are falsy. *)
Definition limit_reached (limit : option Z) (books_count : Z) : bool :=
  match limit with
  | Some l => bool_decide (l ≠ 0) && bool_decide (l ≤ books_count)
  | None => false
  end.

(** The address of page [page_num] of a category (lines 79-82). *)
Definition page_url (category_url : string) (page_num : Z) : string :=
  if bool_decide (page_num = 1) then category_url
  else PyStr.replace "index.html" ("page-" +:+ pretty page_num +:+ ".html") category_url.

(** [book.h3.a['href']] *)
Definition book_href (book : node) : result string :=
  h3 ← unwrap AttributeError (child_tag "h3" book);
  a ← unwrap TypeError (child_tag "a" h3);
  getitem "href" a.

(** Lines 134-137 of [scrape_all_categories]. *)
Definition category_link (category : node) : result string :=
  category_url ← getitem "href" category;
  mret (if PyStr.startswith "http" category_url then category_url
        else base_url +:+ category_url).

Section Crawl.

(** The site as [requests] sees it, and [urllib.parse.urljoin]. *)
Variable web : string → response.
Variable urljoin : string → string → string.

Definition get_soup (url : string) : io (option node) :=
  _ ← emit (Get url);
  let response := web url in
  mret (if bool_decide (status_code response = 200)
        then Some (content response) else None).

Definition extract_book_data (book_url : string) : io (option book) :=
  soup ← get_soup book_url;
  match soup with
  | None => mret None
  | Some soup => data ← lift (book_details soup book_url); mret (Some data)
  end.

(** The state of [scrape_category]: [books_in_category] and [books_count]. *)
Definition progress : Type := list book * Z.

(** The [for book in books] loop (lines 92-109). *)
Fixpoint scrape_books (url : string) (limit : option Z) (books : list node)
    (st : progress) : io progress :=
  match books with
  | [] => mret st
  | book :: rest =>
      if limit_reached limit st.2 then mret st
      else
        href ← lift (book_href book);
        let book_url := urljoin url href in
        book_data ← extract_book_data book_url;
        let st' :=
          match book_data with
          | Some data => (st.1 ++ [data], st.2 + 1)
          | None => st
          end in
        _ ← emit Sleep;
        scrape_books url limit rest st'
  end.

(** The [while True] loop (lines 78-119); [fuel] bounds the number of
    listing pages visited. *)
Fixpoint scrape_pages (fuel : nat) (category_url : string) (limit : option Z)
    (page_num : Z) (st : progress) : io (list book) :=
  match fuel with
  | O => ([], Unfinished)
  | S fuel' =>
      let url := page_url category_url page_num in
      soup ← get_soup url;
      match soup with
      | None => mret st.1
      | Some soup =>
          match select [] (tag_class_sel "article" "product_pod") soup with
          | [] => mret st.1
          | books =>
              st' ← scrape_books url limit books st;
              if limit_reached limit st'.2 then mret st'.1
              else
                match select_one [tag_class_sel "li" "next"] (tag_sel "a") soup with
                | None => mret st'.1
                | Some _ => scrape_pages fuel' category_url limit (page_num + 1) st'
                end
          end
      end
  end.

Definition scrape_category (fuel : nat) (category_url : string)
    (limit : option Z) : io (list book) :=
  scrape_pages fuel category_url limit 1 ([], 0).

(** Lines 142-144: [self.books_data] is extended category by category. *)
Fixpoint scrape_links (fuel : nat) (limit : option Z) (category_links : list string)
    (books_data : list book) : io (list book) :=
  match category_links with
  | [] => mret books_data
  | category_url :: rest =>
      category_books ← scrape_category fuel category_url limit;
      scrape_links fuel limit rest (books_data ++ category_books)
  end.

(** [scrape_all_categories]: the result is the new value of
    [self.books_data]. *)
Definition scrape_all_categories (fuel : nat) (books_data : list book)
    (books_per_category : Z) : io (list book) :=
  soup ← get_soup base_url;
  match soup with
  | None => mret books_data
  | Some soup =>
      let categories :=
        select [tag_class_sel "div" "side_categories"; tag_class_sel "ul" "nav-list";
                tag_sel "li"; tag_sel "ul"; tag_sel "li"] (tag_sel "a") soup in
      category_links ← lift (mapM category_link categories);
      scrape_links fuel (Some books_per_category) category_links books_data
  end.

(** The test path of the main program (line 258). *)
Definition scrape_main_page (fuel : nat) : io (list book) :=
  scrape_category fuel base_url (Some 20).

End Crawl.

End Scraper.

(** ** Concrete catalogues *)

Module Fixtures.
Import Bs4 Scraper.
Local Open Scope Z_scope.

Definition el (name : string) (attrs : list (string * string)) (contents : list node) : node :=
  Tag name (list_to_map attrs) contents.

Definition txt (s : string) : node := NavigableString s.

Definition document (contents : list node) : node := Tag "[document]" ∅ contents.

(** The parts of a product page of the catalogue. *)
Definition breadcrumb (segments : list string) : node :=
  el "ul" [("class", "breadcrumb")] ((λ s, el "li" [] [el "a" [("href", "#")] [txt s]]) <$> segments).

Definition h1 (t : string) : node := el "h1" [] [txt t].
Definition price_p (t : string) : node := el "p" [("class", "price_color")] [txt t].
Definition stock_p (cls t : string) : node :=
  el "p" [("class", cls)] [el "i" [("class", "icon-ok")] []; txt t].
Definition star_p (word : string) : node :=
  el "p" [("class", "star-rating " +:+ word)] [el "i" [("class", "icon-star")] []].
Definition product_main (parts : list node) : node :=
  el "div" [("class", "col-sm-6 product_main")] parts.
Definition description_block (t : string) : list node :=
  [el "div" [("id", "product_description"); ("class", "sub-header")] [el "h2" [] [txt "Product Description"]];
   el "p" [] [txt t]].
Definition details_table (rows : list (string * string)) : node :=
  el "table" [("class", "table table-striped")]
     ((λ r, el "tr" [] [el "th" [] [txt r.1]; el "td" [] [txt r.2]]) <$> rows).

Definition product_page (crumbs : list string) (main : list node)
    (descr : list node) (rows : list (string * string)) : node :=
  document [el "html" [] [el "body" []
    ([breadcrumb crumbs; product_main main] ++ descr ++ [details_table rows])]].

(** A page as the catalogue serves it. *)
Definition light_in_the_attic : node :=
  product_page ["Home"; "Books"; "Poetry"; "A Light in the Attic"]
    [h1 "A Light in the Attic"; price_p "£51.77";
     stock_p "instock availability" "
    In stock (16 available)
"; star_p "Three"]
    (description_block "It's hard to imagine a world without A Light in the Attic.")
    [("UPC", "a897fe39b1053632"); ("Product Type", "Books")].

Definition light_url : string :=
  "http://books.toscrape.com/catalogue/a-light-in-the-attic_1000/index.html".

(** A listing page: one [article.product_pod] per book, and the pager. *)
Definition product_pod (href : string) : node :=
  el "article" [("class", "product_pod")]
     [el "div" [("class", "image_container")] [el "a" [("href", href)] [el "img" [("class", "thumbnail")] []]];
      el "h3" [] [el "a" [("href", href); ("title", "a book")] [txt "a book"]];
      el "div" [("class", "product_price")] [el "p" [("class", "price_color")] [txt "£10.00"]]].

Definition pager (next : option string) : list node :=
  match next with
  | Some href => [el "ul" [("class", "pager")] [el "li" [("class", "next")] [el "a" [("href", href)] [txt "next"]]]]
  | None => []
  end.

Definition listing_page (hrefs : list string) (next : option string) : node :=
  document [el "html" [] [el "body" []
    (el "section" [] [el "ol" [("class", "row")] ((λ h, el "li" [] [product_pod h]) <$> hrefs)]
     :: pager next)]].

(** A site given by its pages: every other address answers 404. *)
Definition site (pages : list (string * node)) (url : string) : response :=
  match (list_to_map pages : gmap string node) !! url with
  | Some page => Response 200 page
  | None => Response 404 (document [])
  end.

(** [urljoin] on the absolute addresses used in these catalogues: an
    absolute reference is returned as it is. *)
Definition urljoin_absolute (base ref : string) : string := ref.

(** *** A category of three pages of twenty books *)

Definition travel_url : string :=
  "http://books.toscrape.com/catalogue/category/books/travel_2/index.html".

Definition item_url (i : nat) : string :=
  "http://books.toscrape.com/catalogue/book_" +:+ pretty (Z.of_nat i) +:+ "/index.html".

Definition item_page (i : nat) : node :=
  product_page ["Home"; "Books"; "Travel"; "Book " +:+ pretty (Z.of_nat i)]
    [h1 ("Book " +:+ pretty (Z.of_nat i)); price_p "£20.50";
     stock_p "instock availability" "In stock (3 available)"; star_p "Four"]
    []
    [("UPC", "upc" +:+ pretty (Z.of_nat i))].

(** The record that [extract_book_data] builds from [item_page i]. *)
Definition travel_book (i : nat) : book :=
  Book ("Book " +:+ pretty (Z.of_nat i)) (41 # 2)%Q 4 true 3
       "No description available" "Travel" ("upc" +:+ pretty (Z.of_nat i)) (item_url i).

(** The events of one book handled without exception. *)
Definition visit (i : nat) : list event := [Get (item_url i); Sleep].

Definition travel_listing (k : nat) : string * node :=
  (page_url travel_url (Z.of_nat k),
   listing_page (item_url <$> seq (20 * (k - 1) + 1) 20)
                (if bool_decide (k < 3)%nat then Some ("page-" +:+ pretty (Z.of_nat (k + 1)) +:+ ".html") else None)).

Definition travel_pages : list (string * node) :=
  (travel_listing <$> seq 1 3) ++ ((λ i, (item_url i, item_page i)) <$> seq 1 60).

Definition travel_site : string → response := site travel_pages.


(** *** A one-page category of two books *)

Definition poetry_url : string :=
  "http://books.toscrape.com/catalogue/category/books/poetry_23/index.html".

Definition priceless_url : string :=
  "http://books.toscrape.com/catalogue/priceless_999/index.html".

(** A product page without its price node. *)
Definition priceless : node :=
  product_page ["Home"; "Books"; "Poetry"; "Priceless"]
    [h1 "Priceless"; stock_p "instock availability" "In stock (2 available)"; star_p "One"]
    (description_block "No price is printed on this page.")
    [("UPC", "0000000000000000")].

Definition poetry_listing : node := listing_page [light_url; priceless_url] None.

Definition poetry_site : string → response :=
  site [(poetry_url, poetry_listing); (light_url, light_in_the_attic); (priceless_url, priceless)].

(** The same category when the second book's page is not served at all. *)
Definition poetry_site_item_down : string → response :=
  site [(poetry_url, poetry_listing); (light_url, light_in_the_attic)].

(** *** Product pages with a part missing or unusual *)

(** No [h1] under [div.product_main]. *)
Definition untitled : node :=
  product_page ["Home"; "Books"; "Poetry"; "Untitled"]
    [price_p "£12.00"; stock_p "instock availability" "In stock (1 available)"; star_p "Two"]
    (description_block "A page whose heading was lost.")
    [("UPC", "1111111111111111")].

Definition untitled_url : string :=
  "http://books.toscrape.com/catalogue/untitled_998/index.html".

Definition untitled_site : string → response := site [(untitled_url, untitled)].

(** No availability paragraph at all. *)
Definition no_availability : node :=
  product_page ["Home"; "Books"; "Poetry"; "Unknown stock"]
    [h1 "Unknown stock"; price_p "£12.00"; star_p "Two"]
    (description_block "Nothing is said about the stock.")
    [("UPC", "2222222222222222")].

(** An availability paragraph that is not marked [instock]. *)
Definition sold_out : node :=
  product_page ["Home"; "Books"; "Poetry"; "Sold out"]
    [h1 "Sold out"; price_p "£12.00"; stock_p "outofstock availability" "Out of stock"; star_p "Two"]
    (description_block "The last copy is gone.")
    [("UPC", "3333333333333333")].

(** The stock paragraph of the catalogue, saying that nothing is left. *)
Definition none_left : node :=
  product_page ["Home"; "Books"; "Poetry"; "None left"]
    [h1 "None left"; price_p "£12.00"; stock_p "instock availability" "Out of stock"; star_p "Two"]
    (description_block "The shelf is empty.")
    [("UPC", "4444444444444444")].

(** A rating word outside one..five, and no description block. *)
Definition plain : node :=
  product_page ["Home"; "Books"; "Poetry"; "Plain"]
    [h1 "Plain"; price_p "£12.00"; stock_p "instock availability" "In stock"; star_p "Zero"]
    []
    [("UPC", "5555555555555555")].

(** *** The whole shop: the root page and its two categories *)

(** The root page lists the books of the first page and, in the side bar,
    the categories. *)
Definition side_categories (hrefs : list string) : node :=
  el "div" [("class", "side_categories")]
     [el "ul" [("class", "nav nav-list")]
         [el "li" []
             [el "a" [("href", "catalogue/category/books_1/index.html")] [txt "Books"];
              el "ul" [] ((λ h, el "li" [] [el "a" [("href", h)] [txt "a category"]]) <$> hrefs)]]].

Definition root_page (categories : list string) (hrefs : list string)
    (next : option string) : node :=
  document [el "html" [] [el "body" []
    (side_categories categories
     :: el "section" [] [el "ol" [("class", "row")] ((λ h, el "li" [] [product_pod h]) <$> hrefs)]
     :: pager next)]].

Definition shop_root : node :=
  root_page ["catalogue/category/books/poetry_23/index.html";
             "catalogue/category/books/travel_2/index.html"]
            (item_url <$> seq 1 20) (Some "catalogue/page-2.html").

Definition shop_pages : list (string * node) :=
  [(base_url, shop_root); (poetry_url, poetry_listing); (light_url, light_in_the_attic)]
  ++ travel_pages.

(** The shop with the malformed page in its poetry category. *)
Definition shop_site : string → response :=
  site ((priceless_url, priceless) :: shop_pages).

(** The shop when that page is not served. *)
Definition shop_site_item_down : string → response := site shop_pages.

(** The shop when the page of its third book is not served. *)
Definition shop_site_book3_down : string → response :=
  site (List.filter (λ p, negb (bool_decide (p.1 = item_url 3))) shop_pages).

(** *** A listing whose first book is not served *)




End Fixtures.

(** ** Notions used in the statements *)

Import Bs4 Scraper Fixtures.
Local Open Scope Z_scope.

(** Strings of decimal digits. *)
Definition digits (s : string) : Prop := PyStr.forallb PyStr.isdigit s = true.

(** The value denoted by the literal [ip.fp]: integer part plus fraction. *)
Definition decimal_value (ip fp : string) : Q :=
  (inject_Z (PyStr.int_of_digits ip) + (PyStr.int_of_digits fp # PyStr.pow10 (String.length fp)))%Q.

(** A currency symbol: characters that are neither digits nor dots. *)
Definition symbol (s : string) : Prop :=
  PyStr.forallb (λ c, negb (PyStr.isdigit c || PyStr.is_dot c)) s = true.

(** The stock text contains an occurrence of the pattern "<N> available". *)
Definition available_pattern_in (s : string) : Prop :=
  ∃ pre ds post : string,
    ds ≠ EmptyString ∧ digits ds ∧ s = pre +:+ ds +:+ " available" +:+ post.

(** The five rating words. *)
Definition rating_words : list string := ["one"; "two"; "three"; "four"; "five"].

(** The node that carries the title, if there is one. *)
Definition title_node (soup : node) : option node :=
  find "div" "product_main" soup ≫= child_tag "h1".

(** The state after a book has been handled (lines 104-106). *)
Definition record_book (book_data : option book) (st : progress) : progress :=
  match book_data with
  | Some data => (st.1 ++ [data], st.2 + 1)
  | None => st
  end.

(** Requests in a trace, and those among them that were not answered with
    status 200. *)
Definition is_get (e : event) : bool :=
  match e with Get _ => true | Sleep => false end.

Definition is_failed_get (web : string → response) (e : event) : bool :=
  match e with
  | Get u => negb (bool_decide (status_code (web u) = 200))
  | Sleep => false
  end.

Definition gets (tr : list event) : nat := length (List.filter is_get tr).
Definition failed_gets (web : string → response) (tr : list event) : nat :=
  length (List.filter (is_failed_get web) tr).

(** The books of a listing page, as [scrape_category] selects them. *)
Definition books_on (soup : node) : list node :=
  select [] (tag_class_sel "article" "product_pod") soup.

(** The requests and delays of the crawl of the three-page category with
    [limit=25]: page 1 and its twenty books, page 2 and its first five. *)
Definition first_25_trace : list event :=
  Get travel_url :: (seq 1 20 ≫= visit) ++
  Get (page_url travel_url 2) :: (seq 21 5 ≫= visit).

(** The requests and delays of the complete crawl of the three-page
    category. *)
Definition all_60_trace : list event :=
  Get travel_url :: (seq 1 20 ≫= visit) ++
  Get (page_url travel_url 2) :: (seq 21 20 ≫= visit) ++
  Get (page_url travel_url 3) :: (seq 41 20 ≫= visit).

(** The record that [extract_book_data] builds from [light_in_the_attic]. *)
Definition light_book : book :=
  Book "A Light in the Attic" (5177 # 100)%Q 3 true 16
       "It's hard to imagine a world without A Light in the Attic."
       "Poetry" "a897fe39b1053632" light_url.


(** *** Further notions *)

(** Letters that are equal up to their ASCII case. *)
Definition is_upper (c : ascii) : bool :=
  let n := Ascii.N_of_ascii c in ((65 <=? n) && (n <=? 90))%N.

Definition same_letter (a b : ascii) : Prop :=
  a = b ∨
  (is_upper a = true ∧ b = Ascii.ascii_of_N (Ascii.N_of_ascii a + 32)) ∨
  (is_upper b = true ∧ a = Ascii.ascii_of_N (Ascii.N_of_ascii b + 32)).

Fixpoint same_letters (s t : string) : Prop :=
  match s, t with
  | EmptyString, EmptyString => True
  | String a s', String b t' => same_letter a b ∧ same_letters s' t'
  | _, _ => False
  end.

(** The book [b] of the listing page at [url] has a link, its page is
    served, and [data] is extracted from it. *)
Definition extractable (web : string → response) (urljoin : string → string → string)
    (url : string) (b : node) (data : book) : Prop :=
  ∃ href,
    book_href b = Ok href ∧
    status_code (web (urljoin url href)) = 200 ∧
    book_details (content (web (urljoin url href))) (urljoin url href) = Ok data.

(** The events of a book that is handled without exception. *)
Definition request_and_delay (u : string) : list event := [Get u; Sleep].

(** The category anchors of the root page (line 131). *)
Definition category_anchors (soup : node) : list node :=
  select [tag_class_sel "div" "side_categories"; tag_class_sel "ul" "nav-list";
          tag_sel "li"; tag_sel "ul"; tag_sel "li"] (tag_sel "a") soup.

(** The [li.next a] link of a listing page (line 115). *)
Definition next_button (soup : node) : option node :=
  select_one [tag_class_sel "li" "next"] (tag_sel "a") soup.

(** The price text has a digit; the number of its dots. *)
Definition has_digit (s : string) : bool :=
  negb (bool_decide (PyStr.filter PyStr.isdigit s = EmptyString)).

Definition count_dots (s : string) : nat :=
  String.length (PyStr.filter PyStr.is_dot s).


(** The turn of the book [b] does not raise: it has a link, and its page is
    either not served or extractable. *)
Definition quiet (web : string → response) (urljoin : string → string → string)
    (url : string) (b : node) : bool :=
  match book_href b with
  | Ok href =>
      negb (bool_decide (status_code (web (urljoin url href)) = 200)) ||
      is_ok (book_details (content (web (urljoin url href))) (urljoin url href))
  | Raise _ => false
  end.

(** How many more books the limit lets through when [count] are recorded
    and [n] are offered. *)
Definition room (limit : option Z) (count : Z) (n : nat) : nat :=
  match limit with
  | Some L => if bool_decide (L = 0) then n else n `min` Z.to_nat (L - count)
  | None => n
  end.

(** A root page one of whose category anchors has no [href]. *)
Definition broken_root : node :=
  document [el "html" [] [el "body" []
    [el "div" [("class", "side_categories")]
        [el "ul" [("class", "nav nav-list")]
            [el "li" []
                [el "ul" []
                    [el "li" [] [el "a" [("href", "catalogue/category/books/travel_2/index.html")]
                                    [txt "Travel"]];
                     el "li" [] [el "a" [("name", "poetry")] [txt "Poetry"]]]]]]]]].

Definition broken_shop : string → response :=
  site ((base_url, broken_root) :: travel_pages).

(** The record [r] is the extraction of a served page requested in [tr]. *)
Definition requested_in (web : string → response) (tr : list event) (r : book) : Prop :=
  Get (url r) ∈ tr ∧
  status_code (web (url r)) = 200 ∧
  book_details (content (web (url r))) (url r) = Ok r.

(** ** The analysis and the main program *)

(** [save_to_csv], the summary of [analyze_data] and the main program.  The
    data frame built from [books_data] is the list of its records.  Writing
    the CSV file and drawing the charts are not observed; the pandas and
    plotting calls are taken to succeed on a frame that is not empty.  The
    two averages are the exact means of the modelled values. *)
Module Analysis.

(** The labels of [pd.cut(df['rating'], bins=[0, 2, 3, 5], labels=...)]. *)
Inductive sentiment : Set := Negative | Neutral | Positive.

Global Instance sentiment_eq_dec : EqDecision sentiment.
Proof. solve_decision. Defined.

(** The bins are open on the left and closed on the right: (0, 2], (2, 3]
    and (3, 5]; a rating outside them has no label (NaN). *)
Definition cut (rating : Z) : option sentiment :=
  if bool_decide (0 < rating ≤ 2) then Some Negative
  else if bool_decide (2 < rating ≤ 3) then Some Neutral
  else if bool_decide (3 < rating ≤ 5) then Some Positive
  else None.

(** [df['sentiment'].value_counts()]: rows without label are not counted. *)
Definition sentiment_counts (df : list book) (label : sentiment) : nat :=
  length (List.filter (λ r, bool_decide (cut (rating r) = Some label)) df).

Definition mean (values : list Q) : Q :=
  Qred (foldr Qplus 0%Q values / inject_Z (Z.of_nat (length values)))%Q.

(** The dictionary of lines 233-239. *)
Record summary : Type := Summary {
  total_books : nat;
  avg_price : Q;
  avg_rating : Q;
  categories_count : nat;
  sentiment_breakdown : sentiment → nat
}.

Definition summarize (df : list book) : summary :=
  Summary (length df)
          (mean (price <$> df))
          (mean ((λ r, inject_Z (rating r)) <$> df))
          (length (remove_dups (category <$> df)))
          (sentiment_counts df).

(** [save_to_csv]: [None] when there is no data, the frame otherwise. *)
Definition save_to_csv (books_data : list book) : option (list book) :=
  match books_data with
  | [] => None
  | _ => Some books_data
  end.

(** [analyze_data(df)]: without frame it builds one from [books_data], and
    returns [None] when there is no data either. *)
Definition analyze_data (books_data : list book) (df : option (list book)) : option summary :=
  match df with
  | Some df => Some (summarize df)
  | None =>
      match books_data with
      | [] => None
      | _ => Some (summarize books_data)
      end
  end.

(** The main program (lines 247-269), for the two answers read from the
    console: a new scraper starts with no data; [summary.items()] raises
    [AttributeError] when the summary is [None]. *)
Definition main (web : string → response) (urljoin : string → string → string)
    (fuel : nat) (all_categories : bool) (books_per_category : Z) : io summary :=
  books_data ←
    (if all_categories
     then scrape_all_categories web urljoin fuel [] books_per_category
     else test_books ← scrape_category web urljoin fuel base_url (Some 20);
          mret ([] ++ test_books));
  let df := save_to_csv books_data in
  match analyze_data books_data df with
  | Some summary => mret summary
  | None => ([], Raises AttributeError)
  end.

End Analysis.

(** ** Properties of the string operations *)

Section PyStrFacts.
Import PyStr.

Lemma append_nil_l (s : string) : EmptyString +:+ s = s.
Proof. reflexivity. Qed.

Lemma append_cons (c : ascii) (a b : string) :
  String c a +:+ b = String c (a +:+ b).
Proof. reflexivity. Qed.

Lemma append_nil_r (s : string) : s +:+ EmptyString = s.
Proof. induction s as [|c s IH]; [done | by rewrite append_cons, IH]. Qed.

Lemma append_assoc (a b c : string) : (a +:+ b) +:+ c = a +:+ b +:+ c.
Proof. induction a as [|x a IH]; [done | by rewrite !append_cons, IH]. Qed.

Lemma length_append (a b : string) :
  String.length (a +:+ b) = (String.length a + String.length b)%nat.
Proof. induction a as [|x a IH]; [done | rewrite append_cons; simpl; by rewrite IH]. Qed.

Lemma startswith_append (p s : string) : startswith p (p +:+ s) = true.
Proof.
  induction p as [|c p IH]; [done |].
  rewrite append_cons. simpl. by rewrite bool_decide_eq_true_2.
Qed.

(** A string that starts with [p] is [p] followed by something. *)
Lemma startswith_inv (p s : string) :
  startswith p s = true → ∃ t, s = p +:+ t.
Proof.
  revert s. induction p as [|c p IH]; intros s H.
  - by exists s.
  - destruct s as [|d s]; [done |]. simpl in H.
    apply andb_true_iff in H as [Hc Hp].
    apply bool_decide_eq_true_1 in Hc as ->.
    destruct (IH _ Hp) as [t ->]. by exists t.
Qed.


(** [replace] leaves a string without occurrence of [old] untouched. *)
Lemma replace_absent (old new s : string) :
  contains old s = false → replace old new s = s.
Proof.
  unfold replace. induction s as [|c s IH]; intros H; [done |].
  cbn [contains] in H. apply orb_false_iff in H as [Hhere Hlater].
  cbn [replace_from]. rewrite Hhere. by rewrite IH.
Qed.

Lemma digits_cons (c : ascii) (s : string) :
  digits (String c s) ↔ isdigit c = true ∧ digits s.
Proof. unfold digits. simpl. apply andb_true_iff. Qed.

Lemma forallb_append (f : ascii → bool) (a b : string) :
  forallb f (a +:+ b) = forallb f a && forallb f b.
Proof.
  induction a as [|c a IH]; [done |].
  rewrite append_cons. simpl. by rewrite IH, andb_assoc.
Qed.

Lemma filter_append (f : ascii → bool) (a b : string) :
  filter f (a +:+ b) = filter f a +:+ filter f b.
Proof.
  induction a as [|c a IH]; [done |].
  rewrite append_cons. simpl. destruct (f c); by rewrite IH.
Qed.

Lemma filter_all (f : ascii → bool) (s : string) :
  forallb f s = true → filter f s = s.
Proof.
  induction s as [|c s IH]; [done |]. simpl.
  intros [Hc Hs]%andb_true_iff. by rewrite Hc, IH.
Qed.

Lemma filter_none (f : ascii → bool) (s : string) :
  forallb (λ c, negb (f c)) s = true → filter f s = EmptyString.
Proof.
  induction s as [|c s IH]; [done |]. simpl.
  intros [Hc Hs]%andb_true_iff. apply negb_true_iff in Hc. by rewrite Hc, IH.
Qed.

Lemma isdigit_not_dot (c : ascii) : isdigit c = true → is_dot c = false.
Proof.
  intros H. unfold is_dot. apply bool_decide_eq_false_2. intros ->. done.
Qed.

(** [span_digits] splits a string into digits and a remainder. *)
Lemma span_digits_spec (s ds rest : string) :
  span_digits s = (ds, rest) → s = ds +:+ rest ∧ digits ds.
Proof.
  revert ds rest. induction s as [|c s IH]; intros ds rest H; simpl in H.
  - by inversion H.
  - destruct (isdigit c) eqn:Hc.
    + destruct (span_digits s) as [ds' rest'] eqn:E. inversion H; subst.
      destruct (IH _ _ eq_refl) as [-> Hds]. split; [done |].
      by apply digits_cons.
    + by inversion H.
Qed.

(** What [re.search] reports is an occurrence of the pattern. *)
Lemma search_available_sound (s ds : string) :
  search_available s = Some ds →
  ds ≠ EmptyString ∧ digits ds ∧
  ∃ pre post, s = pre +:+ ds +:+ " available" +:+ post.
Proof.
  induction s as [|c s IH]; intros H; [done |].
  cbn [search_available] in H.
  destruct (span_digits (String c s)) as [ds' rest] eqn:E.
  destruct (negb (bool_decide (ds' = EmptyString)) && startswith " available" rest) eqn:Hm.
  - inversion H; subst ds'. apply andb_true_iff in Hm as [Hne Hpre].
    apply negb_true_iff, bool_decide_eq_false_1 in Hne.
    destruct (span_digits_spec _ _ _ E) as [Hs Hd].
    destruct (startswith_inv _ _ Hpre) as [post ->].
    split; [done |]. split; [done |].
    exists EmptyString, post. by rewrite append_nil_l.
  - destruct (IH H) as (Hne & Hd & pre & post & ->).
    split; [done |]. split; [done |].
    exists (String c pre), post. by rewrite append_cons.
Qed.

(** Reading digits after digits. *)
Lemma int_from_append (acc : Z) (a b : string) :
  int_from acc (a +:+ b) = int_from (int_from acc a) b.
Proof.
  revert acc. induction a as [|c a IH]; intros acc; [done |].
  rewrite append_cons. simpl. by rewrite IH.
Qed.

Lemma int_from_shift (acc : Z) (s : string) :
  int_from acc s = (acc * Z.pos (pow10 (String.length s)) + int_from 0 s)%Z.
Proof.
  revert acc. induction s as [|c s IH]; intros acc; simpl.
  - lia.
  - rewrite IH, (IH (10 * 0 + digit_value c)%Z). lia.
Qed.

Lemma int_of_digits_append (a b : string) :
  int_of_digits (a +:+ b) =
  (int_of_digits a * Z.pos (pow10 (String.length b)) + int_of_digits b)%Z.
Proof.
  unfold int_of_digits. by rewrite int_from_append, int_from_shift.
Qed.

Lemma split_dot_digits (ip rest : string) :
  digits ip → split_dot (ip +:+ String "." rest) = (ip, Some rest).
Proof.
  induction ip as [|c ip IH]; intros H.
  - done.
  - apply digits_cons in H as [Hc Hip]. rewrite append_cons. simpl.
    rewrite (isdigit_not_dot _ Hc), (IH Hip). done.
Qed.

(** [float] reads a literal [ip.fp] as the number it denotes. *)
Lemma float_decimal (ip fp : string) :
  digits ip → digits fp → ip +:+ fp ≠ EmptyString →
  float (ip +:+ String "." fp) = Ok (Qred (decimal_value ip fp)).
Proof.
  intros Hip Hfp Hne. unfold float.
  rewrite (split_dot_digits _ _ Hip). simpl.
  unfold digits in Hip, Hfp. rewrite Hip, Hfp. simpl.
  rewrite bool_decide_eq_false_2 by done. simpl. f_equal.
  apply Qred_complete. unfold decimal_value, Qeq, Qplus, inject_Z. simpl.
  rewrite int_of_digits_append. lia.
Qed.

End PyStrFacts.

(** ** Properties of the crawl *)

Section CrawlFacts.
Import Bs4 Scraper.
Local Open Scope Z_scope.

Variable web : string → response.
Variable urljoin : string → string → string.

(** A bind is decided by the outcome of its first part. *)
Lemma bind_returns {A B} (m : io A) (f : A → io B) (tr : list event) (a : A) :
  m = (tr, Returns a) → m ≫= f = (tr ++ (f a).1, (f a).2).
Proof. by intros ->. Qed.

Lemma bind_raises {A B} (m : io A) (f : A → io B) (tr : list event) (e : exn) :
  m = (tr, Raises e) → m ≫= f = (tr, Raises e).
Proof. by intros ->. Qed.

Lemma bind_unfinished {A B} (m : io A) (f : A → io B) (tr : list event) :
  m = (tr, Unfinished) → m ≫= f = (tr, Unfinished).
Proof. by intros ->. Qed.

(** [get_soup] sends one request and never raises. *)
Lemma get_soup_eq (url : string) :
  get_soup web url =
  ([Get url], Returns (if bool_decide (status_code (web url) = 200)
                       then Some (content (web url)) else None)).
Proof. reflexivity. Qed.

(** The three ways [extract_book_data] can end. *)
Lemma extract_unreachable (book_url : string) :
  status_code (web book_url) ≠ 200 →
  extract_book_data web book_url = ([Get book_url], Returns None).
Proof.
  intros H. unfold extract_book_data.
  rewrite (bind_returns _ _ _ _ (get_soup_eq book_url)).
  by rewrite bool_decide_eq_false_2.
Qed.

Lemma extract_returns (book_url : string) (data : book) :
  status_code (web book_url) = 200 →
  book_details (content (web book_url)) book_url = Ok data →
  extract_book_data web book_url = ([Get book_url], Returns (Some data)).
Proof.
  intros H Hd. unfold extract_book_data.
  rewrite (bind_returns _ _ _ _ (get_soup_eq book_url)).
  rewrite bool_decide_eq_true_2 by done. by rewrite Hd.
Qed.

Lemma extract_raises (book_url : string) (e : exn) :
  status_code (web book_url) = 200 →
  book_details (content (web book_url)) book_url = Raise e →
  extract_book_data web book_url = ([Get book_url], Raises e).
Proof.
  intros H Hd. unfold extract_book_data.
  rewrite (bind_returns _ _ _ _ (get_soup_eq book_url)).
  rewrite bool_decide_eq_true_2 by done. by rewrite Hd.
Qed.

(** [extract_book_data] always sends exactly the request for the page. *)
Lemma extract_trace (book_url : string) :
  (extract_book_data web book_url).1 = [Get book_url].
Proof.
  destruct (decide (status_code (web book_url) = 200)) as [H|H].
  - destruct (book_details (content (web book_url)) book_url) as [d|e] eqn:E.
    + by rewrite (extract_returns _ _ H E).
    + by rewrite (extract_raises _ _ H E).
  - by rewrite (extract_unreachable _ H).
Qed.

Lemma extract_finished (book_url : string) :
  (extract_book_data web book_url).2 ≠ Unfinished.
Proof.
  destruct (decide (status_code (web book_url) = 200)) as [H|H].
  - destruct (book_details (content (web book_url)) book_url) as [d|e] eqn:E.
    + by rewrite (extract_returns _ _ H E).
    + by rewrite (extract_raises _ _ H E).
  - by rewrite (extract_unreachable _ H).
Qed.

(** One turn of the [for] loop. *)
Lemma scrape_books_cons (url : string) (limit : option Z) (b : node)
    (rest : list node) (st : progress) :
  scrape_books web urljoin url limit (b :: rest) st =
  if limit_reached limit st.2 then ([], Returns st)
  else
    match book_href b with
    | Raise e => ([], Raises e)
    | Ok href =>
        let book_url := urljoin url href in
        match (extract_book_data web book_url).2 with
        | Returns book_data =>
            let r := scrape_books web urljoin url limit rest (record_book book_data st) in
            (Get book_url :: Sleep :: r.1, r.2)
        | Raises e => ([Get book_url], Raises e)
        | Unfinished => ([Get book_url], Unfinished)
        end
    end.
Proof.
  cbn [scrape_books]. destruct (limit_reached limit st.2); [done |].
  destruct (book_href b) as [href|e]; [| done].
  unfold lift. rewrite (bind_returns _ _ [] href) by done.
  cbn [app fst snd].
  pose proof (extract_trace (urljoin url href)) as Htr.
  destruct (extract_book_data web (urljoin url href)) as [tr [data| e |]] eqn:E;
    simpl in Htr; subst tr.
  - destruct data; done.
  - done.
  - done.
Qed.

(** What a completed [for] loop has done: it appended [new] records and
    counted them, every request it sent either produced one of them or was
    not answered, and it did not go past a positive limit. *)
Lemma scrape_books_returns (url : string) (limit : option Z) (books : list node)
    (st st' : progress) (tr : list event) :
  scrape_books web urljoin url limit books st = (tr, Returns st') →
  ∃ new : list book,
    st' = (st.1 ++ new, st.2 + Z.of_nat (length new)) ∧
    gets tr = (length new + failed_gets web tr)%nat ∧
    (∀ L, limit = Some L → 0 < L → st.2 ≤ L → st.2 + Z.of_nat (length new) ≤ L).
Proof.
  revert st tr. induction books as [|b rest IH]; intros st tr H.
  - inversion H; subst. exists []. rewrite app_nil_r. simpl.
    destruct st'; simpl. split; [f_equal; lia |]. split; [done |]. intros; lia.
  - rewrite scrape_books_cons in H.
    destruct (limit_reached limit st.2) eqn:Hl.
    { inversion H; subst. exists []. rewrite app_nil_r. simpl.
      destruct st'; simpl. split; [f_equal; lia |]. split; [done |]. intros; lia. }
    destruct (book_href b) as [href|e]; [| done]. cbn zeta in H.
    destruct (extract_book_data web (urljoin url href)) as [tr0 [data| e |]] eqn:E;
      cbn [snd] in H; [| done | done].
    destruct (scrape_books web urljoin url limit rest (record_book data st))
      as [tr1 o1] eqn:E1.
    cbn [fst snd] in H. inversion H; subst tr o1. clear H.
    destruct (IH _ _ E1) as (new & -> & Hg & Hb).
    destruct data as [d|].
    + (* a record was extracted *)
      assert (status_code (web (urljoin url href)) = 200) as Hs.
      { destruct (decide (status_code (web (urljoin url href)) = 200)); [done |].
        rewrite extract_unreachable in E by done. by inversion E. }
      exists (d :: new). cbn [record_book fst snd] in *.
      split; [rewrite <- app_assoc; simpl; f_equal; lia |].
      split.
      * unfold gets, failed_gets in *. cbn [List.filter is_get is_failed_get].
        rewrite bool_decide_eq_true_2 by done. simpl. by rewrite Hg.
      * intros L -> HL Hst. destruct (decide (L ≤ st.2)) as [Hge|Hlt].
        { unfold limit_reached in Hl.
          rewrite !bool_decide_eq_true_2 in Hl by lia. done. }
        specialize (Hb L eq_refl HL). simpl. lia.
    + (* the book was skipped *)
      assert (status_code (web (urljoin url href)) ≠ 200) as Hs.
      { intros Hs. destruct (book_details (content (web (urljoin url href))) (urljoin url href)) eqn:Ed.
        - rewrite (extract_returns _ _ Hs Ed) in E. by inversion E.
        - rewrite (extract_raises _ _ Hs Ed) in E. by inversion E. }
      exists new. cbn [record_book] in *. split; [done |]. split.
      * unfold gets, failed_gets in *. cbn [List.filter is_get is_failed_get].
        rewrite bool_decide_eq_false_2 by done. simpl. rewrite Hg. lia.
      * done.
Qed.

(** One turn of the [while] loop. *)
Lemma scrape_pages_S (fuel : nat) (category_url : string) (limit : option Z)
    (page_num : Z) (st : progress) :
  scrape_pages web urljoin (S fuel) category_url limit page_num st =
  let url := page_url category_url page_num in
  if bool_decide (status_code (web url) = 200) then
    match select [] (tag_class_sel "article" "product_pod") (content (web url)) with
    | [] => ([Get url], Returns st.1)
    | books =>
        match scrape_books web urljoin url limit books st with
        | (tr, Returns st') =>
            if limit_reached limit st'.2 then (Get url :: tr, Returns st'.1)
            else
              match select_one [tag_class_sel "li" "next"] (tag_sel "a") (content (web url)) with
              | None => (Get url :: tr, Returns st'.1)
              | Some _ =>
                  let r := scrape_pages web urljoin fuel category_url limit (page_num + 1) st' in
                  (Get url :: tr ++ r.1, r.2)
              end
        | (tr, Raises e) => (Get url :: tr, Raises e)
        | (tr, Unfinished) => (Get url :: tr, Unfinished)
        end
    end
  else ([Get url], Returns st.1).
Proof.
  cbn [scrape_pages]. cbn zeta.
  rewrite (bind_returns _ _ _ _ (get_soup_eq _)).
  destruct (bool_decide (status_code (web (page_url category_url page_num)) = 200)); [| done].
  destruct (select [] _ _) as [|b books]; [done |].
  destruct (scrape_books _ _ _ _ _ _) as [tr [st'| e |]]; [| done | done].
  cbn [mbind io_bind fst snd app].
  destruct (limit_reached limit st'.2); [by rewrite app_nil_r |].
  destruct (select_one _ _ _); [done | by rewrite app_nil_r].
Qed.

(** A completed category crawl extends the records it started from and does
    not go past a positive limit. *)
Lemma scrape_pages_returns (fuel : nat) (category_url : string) (limit : option Z)
    (page_num : Z) (st : progress) (tr : list event) (bs : list book) :
  scrape_pages web urljoin fuel category_url limit page_num st = (tr, Returns bs) →
  ∃ new : list book,
    bs = st.1 ++ new ∧
    (∀ L, limit = Some L → 0 < L → st.2 ≤ L → st.2 + Z.of_nat (length new) ≤ L).
Proof.
  revert page_num st tr. induction fuel as [|fuel IH]; intros page_num st tr H; [done |].
  assert (∃ new : list book, st.1 = st.1 ++ new ∧
            (∀ L, limit = Some L → 0 < L → st.2 ≤ L → st.2 + Z.of_nat (length new) ≤ L)) as Hstay.
  { exists []. rewrite app_nil_r. split; [done |]. simpl. intros; lia. }
  rewrite scrape_pages_S in H. cbn zeta in H.
  destruct (bool_decide _); [| by inversion H; subst].
  destruct (select [] _ _) as [|b books]; [by inversion H; subst |].
  destruct (scrape_books _ _ _ _ _ _) as [tr1 [st'| e |]] eqn:E; [| done | done].
  destruct (scrape_books_returns _ _ _ _ _ _ E) as (new1 & -> & _ & Hb1).
  cbn [fst snd] in H.
  assert (∃ new : list book, st.1 ++ new1 = st.1 ++ new ∧
            (∀ L, limit = Some L → 0 < L → st.2 ≤ L → st.2 + Z.of_nat (length new) ≤ L)) as Hhere.
  { by exists new1. }
  destruct (limit_reached limit _); [by inversion H; subst |].
  destruct (select_one _ _ _); [| by inversion H; subst].
  destruct (scrape_pages web urljoin fuel category_url limit (page_num + 1) _)
    as [tr2 o2] eqn:E2.
  cbn [fst snd] in H. inversion H; subst. clear H.
  destruct (IH _ _ _ E2) as (new2 & -> & Hb2). cbn [fst snd] in *.
  exists (new1 ++ new2). split; [by rewrite app_assoc |].
  intros L HL Hpos Hst. rewrite length_app.
  specialize (Hb1 L HL Hpos Hst). specialize (Hb2 L HL Hpos Hb1). lia.
Qed.

(** The turn of a book whose page is not served: nothing is recorded. *)
Lemma scrape_books_skip (url : string) (limit : option Z) (b : node)
    (rest : list node) (st : progress) (href : string) :
  limit_reached limit st.2 = false →
  book_href b = Ok href →
  status_code (web (urljoin url href)) ≠ 200 →
  scrape_books web urljoin url limit (b :: rest) st =
  (Get (urljoin url href) :: Sleep :: (scrape_books web urljoin url limit rest st).1,
   (scrape_books web urljoin url limit rest st).2).
Proof.
  intros Hl Hh Hs. rewrite scrape_books_cons, Hl, Hh. cbn zeta.
  by rewrite (extract_unreachable _ Hs).
Qed.

(** The turn of a book whose page is extracted. *)
Lemma scrape_books_keep (url : string) (limit : option Z) (b : node)
    (rest : list node) (st : progress) (href : string) (data : book) :
  limit_reached limit st.2 = false →
  book_href b = Ok href →
  status_code (web (urljoin url href)) = 200 →
  book_details (content (web (urljoin url href))) (urljoin url href) = Ok data →
  scrape_books web urljoin url limit (b :: rest) st =
  (Get (urljoin url href) :: Sleep ::
     (scrape_books web urljoin url limit rest (st.1 ++ [data], st.2 + 1)).1,
   (scrape_books web urljoin url limit rest (st.1 ++ [data], st.2 + 1)).2).
Proof.
  intros Hl Hh Hs Hd. rewrite scrape_books_cons, Hl, Hh. cbn zeta.
  by rewrite (extract_returns _ _ Hs Hd).
Qed.

(** The turn of a book whose page is malformed: the exception leaves the
    loop, and the books after it are not visited. *)
Lemma scrape_books_raise (url : string) (limit : option Z) (b : node)
    (rest : list node) (st : progress) (href : string) (e : exn) :
  limit_reached limit st.2 = false →
  book_href b = Ok href →
  status_code (web (urljoin url href)) = 200 →
  book_details (content (web (urljoin url href))) (urljoin url href) = Raise e →
  scrape_books web urljoin url limit (b :: rest) st = ([Get (urljoin url href)], Raises e).
Proof.
  intros Hl Hh Hs Hd. rewrite scrape_books_cons, Hl, Hh. cbn zeta.
  by rewrite (extract_raises _ _ Hs Hd).
Qed.

(** Once the limit is reached the loop does nothing more. *)
Lemma scrape_books_stop (url : string) (limit : option Z) (books : list node)
    (st : progress) :
  limit_reached limit st.2 = true →
  scrape_books web urljoin url limit books st = ([], Returns st).
Proof.
  intros Hl. destruct books as [|b rest]; [done |].
  by rewrite scrape_books_cons, Hl.
Qed.

(** The [for] loop always finishes. *)
Lemma scrape_books_finished (url : string) (limit : option Z) (books : list node)
    (st : progress) :
  (scrape_books web urljoin url limit books st).2 ≠ Unfinished.
Proof.
  revert st. induction books as [|b rest IH]; intros st; [done |].
  rewrite scrape_books_cons. destruct (limit_reached limit st.2); [done |].
  destruct (book_href b) as [href|e]; [| done]. cbn zeta.
  pose proof (extract_finished (urljoin url href)) as Hf.
  destruct (extract_book_data web (urljoin url href)).2 as [data| e |]; [| done | done].
  apply IH.
Qed.

(** A result obtained with some budget is obtained with any larger one. *)
Lemma scrape_pages_more_fuel (fuel : nat) (category_url : string) (limit : option Z)
    (page_num : Z) (st : progress) (tr : list event) (o : outcome (list book)) :
  scrape_pages web urljoin fuel category_url limit page_num st = (tr, o) →
  o ≠ Unfinished →
  scrape_pages web urljoin (S fuel) category_url limit page_num st = (tr, o).
Proof.
  revert page_num st tr o. induction fuel as [|fuel IH]; intros page_num st tr o H Hf.
  { inversion H; subst. done. }
  rewrite scrape_pages_S in H. rewrite scrape_pages_S. cbn zeta in *.
  destruct (bool_decide _); [| done].
  destruct (select [] _ _) as [|b books]; [done |].
  destruct (scrape_books _ _ _ _ _ _) as [tr1 [st'| e |]]; [| done | done].
  destruct (limit_reached limit st'.2); [done |].
  destruct (select_one _ _ _); [| done].
  destruct (scrape_pages web urljoin fuel category_url limit (page_num + 1) st')
    as [tr2 o2] eqn:E2.
  cbn [fst snd] in H. inversion H; subst.
  by rewrite (IH _ _ _ _ E2 Hf).
Qed.

Lemma scrape_pages_enough_fuel (fuel extra : nat) (category_url : string)
    (limit : option Z) (page_num : Z) (st : progress) (tr : list event)
    (o : outcome (list book)) :
  scrape_pages web urljoin fuel category_url limit page_num st = (tr, o) →
  o ≠ Unfinished →
  scrape_pages web urljoin (extra + fuel) category_url limit page_num st = (tr, o).
Proof.
  intros H Hf. induction extra as [|extra IH]; [done |].
  by apply scrape_pages_more_fuel.
Qed.

(** Limit [0] and no limit are the same test. *)
Lemma limit_reached_zero (books_count : Z) :
  limit_reached (Some 0) books_count = limit_reached None books_count.
Proof. unfold limit_reached. by rewrite bool_decide_eq_false_2 by lia. Qed.

Lemma scrape_books_limit_zero (url : string) (books : list node) (st : progress) :
  scrape_books web urljoin url (Some 0) books st =
  scrape_books web urljoin url None books st.
Proof.
  revert st. induction books as [|b rest IH]; intros st; [done |].
  rewrite !scrape_books_cons, limit_reached_zero.
  destruct (limit_reached None st.2); [done |].
  destruct (book_href b) as [href|e]; [| done]. cbn zeta.
  destruct (extract_book_data web (urljoin url href)).2 as [data| e |]; [| done | done].
  by rewrite IH.
Qed.

Lemma scrape_pages_limit_zero (fuel : nat) (category_url : string)
    (page_num : Z) (st : progress) :
  scrape_pages web urljoin fuel category_url (Some 0) page_num st =
  scrape_pages web urljoin fuel category_url None page_num st.
Proof.
  revert page_num st. induction fuel as [|fuel IH]; intros page_num st; [done |].
  rewrite !scrape_pages_S. cbn zeta.
  destruct (bool_decide _); [| done].
  destruct (select [] _ _) as [|b books]; [done |].
  rewrite scrape_books_limit_zero.
  destruct (scrape_books _ _ _ _ _ _) as [tr1 [st'| e |]]; [| done | done].
  rewrite limit_reached_zero. destruct (limit_reached None st'.2); [done |].
  destruct (select_one _ _ _); [| done]. by rewrite IH.
Qed.

(** Without the token [index.html] in the category address every page
    index leads to the address itself. *)
Lemma page_url_without_token (category_url : string) (page_num : Z) :
  PyStr.contains "index.html" category_url = false →
  page_url category_url page_num = category_url.
Proof.
  intros H. unfold page_url. destruct (bool_decide (page_num = 1)); [done |].
  by apply replace_absent.
Qed.

Lemma scrape_pages_without_token (fuel : nat) (category_url : string)
    (limit : option Z) (page_num : Z) (st : progress) :
  PyStr.contains "index.html" category_url = false →
  scrape_pages web urljoin fuel category_url limit page_num st =
  scrape_pages web urljoin fuel category_url limit 1 st.
Proof.
  intros H. revert page_num st. induction fuel as [|fuel IH]; intros page_num st; [done |].
  rewrite !scrape_pages_S. cbn zeta.
  rewrite (page_url_without_token _ page_num H), (page_url_without_token _ 1 H).
  destruct (bool_decide _); [| done].
  destruct (select [] _ _) as [|b books]; [done |].
  destruct (scrape_books _ _ _ _ _ _) as [tr1 [st'| e |]]; [| done | done].
  destruct (limit_reached limit st'.2); [done |].
  destruct (select_one _ _ _); [| done].
  by rewrite (IH (page_num + 1)), (IH (1 + 1)).
Qed.

(** An exception raised in a category ends [scrape_all_categories]' loop. *)
Lemma scrape_links_raises (fuel : nat) (limit : option Z) (category_url : string)
    (rest : list string) (books_data : list book) (tr : list event) (e : exn) :
  scrape_category web urljoin fuel category_url limit = (tr, Raises e) →
  scrape_links web urljoin fuel limit (category_url :: rest) books_data = (tr, Raises e).
Proof. intros H. cbn [scrape_links]. by rewrite H. Qed.

Lemma scrape_links_returns (fuel : nat) (limit : option Z) (category_url : string)
    (rest : list string) (books_data : list book) (tr : list event) (bs : list book) :
  scrape_category web urljoin fuel category_url limit = (tr, Returns bs) →
  scrape_links web urljoin fuel limit (category_url :: rest) books_data =
  (tr ++ (scrape_links web urljoin fuel limit rest (books_data ++ bs)).1,
   (scrape_links web urljoin fuel limit rest (books_data ++ bs)).2).
Proof. intros H. cbn [scrape_links]. by rewrite H. Qed.

Lemma scrape_links_enough_fuel (fuel extra : nat) (limit : option Z)
    (category_links : list string) (books_data : list book) (tr : list event)
    (o : outcome (list book)) :
  scrape_links web urljoin fuel limit category_links books_data = (tr, o) →
  o ≠ Unfinished →
  scrape_links web urljoin (extra + fuel) limit category_links books_data = (tr, o).
Proof.
  revert books_data tr. induction category_links as [|c rest IH]; intros books_data tr H Hf.
  { done. }
  cbn [scrape_links] in *.
  destruct (scrape_category web urljoin fuel c limit) as [tr1 o1] eqn:E1.
  assert (o1 ≠ Unfinished) as Hf1.
  { intros ->. inversion H; subst. done. }
  unfold scrape_category in *.
  rewrite (scrape_pages_enough_fuel _ extra _ _ _ _ _ _ E1 Hf1).
  destruct o1 as [bs| e |]; [| done | done].
  cbn [mbind io_bind fst snd] in *.
  destruct (scrape_links web urljoin fuel limit rest (books_data ++ bs)) as [tr2 o2] eqn:E2.
  cbn [fst snd] in H. inversion H; subst.
  by rewrite (IH _ _ E2 Hf).
Qed.

Lemma scrape_all_categories_enough_fuel (fuel extra : nat) (books_data : list book)
    (books_per_category : Z) (tr : list event) (o : outcome (list book)) :
  scrape_all_categories web urljoin fuel books_data books_per_category = (tr, o) →
  o ≠ Unfinished →
  scrape_all_categories web urljoin (extra + fuel) books_data books_per_category = (tr, o).
Proof.
  unfold scrape_all_categories. intros H Hf.
  rewrite (bind_returns _ _ _ _ (get_soup_eq _)) in H.
  rewrite (bind_returns _ _ _ _ (get_soup_eq _)).
  destruct (bool_decide _); [| done].
  destruct (lift (mapM category_link _)) as [tr1 [links| e |]]; [| done | done].
  cbn [mbind io_bind fst snd] in *.
  destruct (scrape_links web urljoin fuel _ links books_data) as [tr2 o2] eqn:E2.
  cbn [fst snd] in H. inversion H; subst.
  by rewrite (scrape_links_enough_fuel _ extra _ _ _ _ _ E2 Hf).
Qed.

End CrawlFacts.

(** ** Properties of the extraction *)

Section ExtractFacts.
Import Bs4 Scraper.
Local Open Scope Z_scope.

(** A record is produced exactly when the seven fallible expressions of
    [extract_book_data] all have a value; the rating look-up, the stock
    count and the description never fail. *)
Lemma book_details_ok (soup : node) (book_url : string)
    (t pt a s c g u : string) (p : Q) :
  title_of soup = Ok t →
  price_text_of soup = Ok pt →
  parse_price pt = Ok p →
  availability_of soup = Ok a →
  stock_text_of soup = Ok s →
  rating_class_of soup = Ok c →
  category_of soup = Ok g →
  upc_of soup = Ok u →
  book_details soup book_url =
  Ok (Book t p (rating_of c) (in_stock_of a) (stock_count_of s)
           (description_of soup) g u book_url).
Proof.
  intros Ht Hpt Hp Ha Hs Hc Hg Hu. unfold book_details.
  rewrite Ht; simpl. rewrite Hpt; simpl. rewrite Hp; simpl.
  rewrite Ha; simpl. rewrite Hs; simpl. rewrite Hc; simpl.
  rewrite Hg; simpl. rewrite Hu; simpl. done.
Qed.

Lemma book_details_inv (soup : node) (book_url : string) (r : book) :
  book_details soup book_url = Ok r →
  ∃ (t pt a s c g u : string) (p : Q),
    title_of soup = Ok t ∧
    price_text_of soup = Ok pt ∧
    parse_price pt = Ok p ∧
    availability_of soup = Ok a ∧
    stock_text_of soup = Ok s ∧
    rating_class_of soup = Ok c ∧
    category_of soup = Ok g ∧
    upc_of soup = Ok u ∧
    r = Book t p (rating_of c) (in_stock_of a) (stock_count_of s)
             (description_of soup) g u book_url.
Proof.
  unfold book_details. intros H.
  destruct (title_of soup) as [t|] eqn:Ht; [simpl in H | done].
  destruct (price_text_of soup) as [pt|] eqn:Hpt; [simpl in H | done].
  destruct (parse_price pt) as [p|] eqn:Hp; [simpl in H | done].
  destruct (availability_of soup) as [a|] eqn:Ha; [simpl in H | done].
  destruct (stock_text_of soup) as [s|] eqn:Hs; [simpl in H | done].
  destruct (rating_class_of soup) as [c|] eqn:Hc; [simpl in H | done].
  destruct (category_of soup) as [g|] eqn:Hg; [simpl in H | done].
  destruct (upc_of soup) as [u|] eqn:Hu; [simpl in H | done].
  inversion H. by exists t, pt, a, s, c, g, u, p.
Qed.

Lemma title_absent (soup : node) :
  title_node soup = None → title_of soup = Raise AttributeError.
Proof.
  unfold title_node, title_of. destruct (find "div" "product_main" soup) as [main|]; simpl.
  - by intros ->.
  - done.
Qed.

End ExtractFacts.

(** ** The extraction, field by field *)

Section ExtractClaims.
Import Bs4 Scraper Fixtures.
Local Open Scope Z_scope.

(** C2 (as amended).  When the title node of a fetched item document is
    absent, [extract_book_data] raises [AttributeError]: the failure is a
    thrown exception, not a returned value, and no record is produced.  More
    generally every failure of the extraction on a fetched document is
    raised, and a fetched document never makes the call return [None]. *)
Theorem missing_title_raises (web : string → response) (book_url : string) :
  status_code (web book_url) = 200 →
  (title_node (content (web book_url)) = None →
     extract_book_data web book_url = ([Get book_url], Raises AttributeError)) ∧
  (∀ e, book_details (content (web book_url)) book_url = Raise e →
     extract_book_data web book_url = ([Get book_url], Raises e)) ∧
  (extract_book_data web book_url).2 ≠ Returns None.
Proof.
  intros Hs. split; [| split].
  - intros Hn. apply extract_raises; [done |].
    unfold book_details. by rewrite (title_absent _ Hn).
  - intros e He. by apply extract_raises.
  - destruct (book_details (content (web book_url)) book_url) as [d|e] eqn:E.
    + by rewrite (extract_returns _ _ _ Hs E).
    + by rewrite (extract_raises _ _ _ Hs E).
Qed.

Lemma missing_title_raises_witness :
  status_code (untitled_site untitled_url) = 200 ∧
  title_node (content (untitled_site untitled_url)) = None ∧
  extract_book_data untitled_site untitled_url = ([Get untitled_url], Raises AttributeError).
Proof.
  split; [reflexivity |]. split; [vm_compute; reflexivity |].
  apply (missing_title_raises untitled_site untitled_url); vm_compute; reflexivity.
Defined.

(** C2, as stated, fails: on a fetched document without title the call does
    not return any value. *)
Lemma missing_title_not_returned :
  status_code (untitled_site untitled_url) = 200 ∧
  title_node (content (untitled_site untitled_url)) = None ∧
  ¬ ∃ v : option book, (extract_book_data untitled_site untitled_url).2 = Returns v.
Proof.
  split; [reflexivity |]. split; [vm_compute; reflexivity |].
  intros [v Hv]. vm_compute in Hv. discriminate Hv.
Qed.

Lemma rating_of_unrecognized (c : string) : c ∉ rating_words → rating_of c = 0.
Proof.
  unfold rating_words. rewrite !not_elem_of_cons. intros (H1 & H2 & H3 & H4 & H5 & _).
  unfold rating_of, rating_map.
  rewrite !lookup_insert_ne by done. by rewrite lookup_empty.
Qed.

Lemma availability_absent (soup : node) :
  find "p" "availability" soup = None → availability_of soup = Raise AttributeError.
Proof. unfold availability_of. by intros ->. Qed.

Lemma stock_node_absent (soup : node) :
  find "p" "instock availability" soup = None → stock_text_of soup = Raise AttributeError.
Proof. unfold stock_text_of. by intros ->. Qed.

(** A missing part makes the whole extraction fail. *)
Lemma book_details_fails (soup : node) (book_url : string) :
  (∃ e, title_of soup = Raise e) ∨ (∃ e, price_text_of soup = Raise e) ∨
  (∃ e, availability_of soup = Raise e) ∨ (∃ e, stock_text_of soup = Raise e) ∨
  (∃ e, rating_class_of soup = Raise e) ∨ (∃ e, category_of soup = Raise e) ∨
  (∃ e, upc_of soup = Raise e) →
  ∃ e, book_details soup book_url = Raise e.
Proof.
  intros H. destruct (book_details soup book_url) as [r|e] eqn:E; [| by exists e].
  destruct (book_details_inv _ _ _ E)
    as (t & pt & a & s & c & g & u & p & Ht & Hpt & Hp & Ha & Hs & Hc & Hg & Hu & _).
  destruct H as [[e H]|[[e H]|[[e H]|[[e H]|[[e H]|[[e H]|[e H]]]]]]]; congruence.
Qed.

(** C3 (as amended).  On a document whose other fields are extractable, an
    unrecognized rating word yields rating 0 and a structurally absent
    description yields "No description available", and neither makes the
    extraction fail.  A missing availability node or a missing stock-status
    node is not defaulted: the extraction raises, and with title and price
    present the exception is [AttributeError]. *)
Theorem soft_defaults (soup : node) (book_url : string) :
  (∀ (t pt a s c g u : string) (p : Q),
     title_of soup = Ok t → price_text_of soup = Ok pt → parse_price pt = Ok p →
     availability_of soup = Ok a → stock_text_of soup = Ok s →
     rating_class_of soup = Ok c → category_of soup = Ok g → upc_of soup = Ok u →
     ∃ r, book_details soup book_url = Ok r ∧
          (c ∉ rating_words → rating r = 0) ∧
          (select_one_sibling (id_sel "product_description") (tag_sel "p") soup = None →
             description r = "No description available")) ∧
  (find "p" "availability" soup = None ∨ find "p" "instock availability" soup = None →
     (∃ e, book_details soup book_url = Raise e) ∧
     (∀ t pt p, title_of soup = Ok t → price_text_of soup = Ok pt → parse_price pt = Ok p →
        book_details soup book_url = Raise AttributeError)).
Proof.
  split.
  - intros t pt a s c g u p Ht Hpt Hp Ha Hs Hc Hg Hu.
    eexists. split; [eapply book_details_ok; eassumption |]. cbn [rating description]. split.
    + apply rating_of_unrecognized.
    + unfold description_of. by intros ->.
  - intros H. split.
    + apply book_details_fails. destruct H as [H|H].
      * right; right; left. eexists. by apply availability_absent.
      * right; right; right; left. eexists. by apply stock_node_absent.
    + intros t pt p Ht Hpt Hp. unfold book_details.
      rewrite Ht; simpl. rewrite Hpt; simpl. rewrite Hp; simpl.
      destruct H as [H|H].
      * by rewrite (availability_absent _ H).
      * rewrite (stock_node_absent _ H). unfold availability_of.
        by destruct (find "p" "availability" soup).
Qed.

Lemma soft_defaults_witness :
  (∃ r, book_details plain light_url = Ok r ∧ rating r = 0 ∧
        description r = "No description available") ∧
  find "p" "availability" no_availability = None ∧
  book_details no_availability light_url = Raise AttributeError.
Proof.
  split; [| split].
  - destruct (proj1 (soft_defaults plain light_url)
                "Plain" "£12.00" "In stock" "In stock" "zero" "Poetry" "5555555555555555" (12 # 1)%Q)
      as (r & Hr & Hrating & Hdescr); try (vm_compute; reflexivity).
    exists r. split; [exact Hr |]. split.
    + apply Hrating. apply (bool_decide_eq_true_1 _). vm_compute. reflexivity.
    + apply Hdescr. vm_compute. reflexivity.
  - vm_compute. reflexivity.
  - assert (find "p" "availability" no_availability = None) as Hn
      by (vm_compute; reflexivity).
    apply (proj2 (proj2 (soft_defaults no_availability light_url) (or_introl Hn))
             "Unknown stock" "£12.00" (12 # 1)%Q); vm_compute; reflexivity.
Defined.

(** C3, as stated, fails: without availability node the extraction raises
    instead of reporting an out-of-stock record; the same happens when only
    the stock-status node ([instock availability]) is missing. *)
Lemma missing_availability_raises :
  find "p" "availability" no_availability = None ∧
  book_details no_availability light_url = Raise AttributeError ∧
  find "p" "instock availability" sold_out = None ∧
  book_details sold_out light_url = Raise AttributeError.
Proof. repeat split; vm_compute; reflexivity. Qed.

Lemma stock_count_default (s : string) :
  ¬ available_pattern_in s → stock_count_of s = 0.
Proof.
  intros Hno. unfold stock_count_of.
  destruct (PyStr.search_available s) as [ds|] eqn:E; [| done].
  destruct (search_available_sound _ _ E) as (Hne & Hd & pre & post & Hs).
  destruct Hno. by exists pre, ds, post.
Qed.

(** C4 (as amended).  On a document whose other fields are extractable and
    which has the stock-status paragraph ([p] with class attribute
    [instock availability]): when the availability text [a] and the text [s]
    of that paragraph are "In stock (16 available)" the record has
    in_stock=true and stock_count=16; when they are "Out of stock" it has
    in_stock=false and stock_count=0; and when [s] has no occurrence of the
    pattern "<N> available" it has stock_count=0.  The extraction does not
    fail in any of these cases. *)
Theorem stock_fields (soup : node) (book_url : string)
    (t pt a s c g u : string) (p : Q) :
  title_of soup = Ok t → price_text_of soup = Ok pt → parse_price pt = Ok p →
  availability_of soup = Ok a → stock_text_of soup = Ok s →
  rating_class_of soup = Ok c → category_of soup = Ok g → upc_of soup = Ok u →
  ∃ r, book_details soup book_url = Ok r ∧
       (a = "In stock (16 available)" → s = "In stock (16 available)" →
          availability r = true ∧ stock_count r = 16) ∧
       (a = "Out of stock" → s = "Out of stock" →
          availability r = false ∧ stock_count r = 0) ∧
       (¬ available_pattern_in s → stock_count r = 0).
Proof.
  intros Ht Hpt Hp Ha Hs Hc Hg Hu.
  eexists. split; [eapply book_details_ok; eassumption |].
  cbn [availability stock_count]. split; [| split].
  - intros -> ->. split; vm_compute; reflexivity.
  - intros -> ->. split; vm_compute; reflexivity.
  - apply stock_count_default.
Qed.

Lemma stock_fields_witness :
  (∃ r, book_details light_in_the_attic light_url = Ok r ∧
        availability r = true ∧ stock_count r = 16) ∧
  (∃ r, book_details none_left light_url = Ok r ∧
        availability r = false ∧ stock_count r = 0).
Proof.
  split.
  - destruct (stock_fields light_in_the_attic light_url
                "A Light in the Attic" "£51.77" "In stock (16 available)"
                "In stock (16 available)" "three" "Poetry" "a897fe39b1053632"
                (5177 # 100)%Q)
      as (r & Hr & Hin & _); try (vm_compute; reflexivity).
    exists r. split; [exact Hr |]. apply Hin; reflexivity.
  - destruct (stock_fields none_left light_url
                "None left" "£12.00" "Out of stock" "Out of stock" "two" "Poetry"
                "4444444444444444" (12 # 1)%Q)
      as (r & Hr & _ & Hout & _); try (vm_compute; reflexivity).
    exists r. split; [exact Hr |]. apply Hout; reflexivity.
Defined.

(** C4, as stated, fails: a document whose availability paragraph reads
    "Out of stock" and is not marked [instock] has no stock-status paragraph,
    and its extraction raises instead of giving in_stock=false and
    stock_count=0. *)
Lemma out_of_stock_page_raises :
  availability_of sold_out = Ok "Out of stock" ∧
  title_of sold_out = Ok "Sold out" ∧
  price_text_of sold_out = Ok "£12.00" ∧
  rating_class_of sold_out = Ok "two" ∧
  category_of sold_out = Ok "Poetry" ∧
  upc_of sold_out = Ok "3333333333333333" ∧
  book_details sold_out light_url = Raise AttributeError ∧
  ¬ ∃ r, book_details sold_out light_url = Ok r ∧
         availability r = false ∧ stock_count r = 0.
Proof.
  repeat (split; [vm_compute; reflexivity |]).
  intros (r & Hr & _). vm_compute in Hr. discriminate Hr.
Qed.

Lemma sub_non_numeric_price (sym ip fp : string) :
  symbol sym → digits ip → digits fp →
  PyStr.sub_non_numeric (sym +:+ ip +:+ "." +:+ fp) = ip +:+ "." +:+ fp.
Proof.
  intros Hsym Hip Hfp. unfold PyStr.sub_non_numeric.
  rewrite !filter_append. rewrite (filter_none _ _ Hsym), append_nil_l.
  rewrite (filter_all _ ip), (filter_all _ fp); [done | |].
  - unfold digits in Hfp. clear -Hfp. induction fp as [|x fp IH]; [done |].
    simpl in *. apply andb_true_iff in Hfp as [-> Hfp]. simpl. by apply IH.
  - unfold digits in Hip. clear -Hip. induction ip as [|x ip IH]; [done |].
    simpl in *. apply andb_true_iff in Hip as [-> Hip]. simpl. by apply IH.
Qed.

(** C5.  A price text made of a currency symbol, digits, a dot and digits
    is parsed to the number that is left once every character other than a
    digit or a dot is removed, that is to the decimal value of the digits;
    "£51.77" gives 51.77; and the price of an extracted record is the price
    text of its document parsed this way. *)
Theorem price_parsed :
  (∀ sym ip fp : string,
     symbol sym → digits ip → ip ≠ EmptyString → digits fp → fp ≠ EmptyString →
     parse_price (sym +:+ ip +:+ "." +:+ fp) = PyStr.float (ip +:+ "." +:+ fp) ∧
     parse_price (sym +:+ ip +:+ "." +:+ fp) = Ok (Qred (decimal_value ip fp))) ∧
  parse_price "£51.77" = Ok (5177 # 100)%Q ∧
  (∀ soup book_url r,
     book_details soup book_url = Ok r →
     ∃ pt, price_text_of soup = Ok pt ∧ parse_price pt = Ok (price r)).
Proof.
  split; [| split].
  - intros sym ip fp Hsym Hip Hne Hfp _. unfold parse_price.
    rewrite (sub_non_numeric_price _ _ _ Hsym Hip Hfp). split; [done |].
    apply float_decimal; [done | done |].
    destruct ip; [done |]. by rewrite append_cons.
  - vm_compute. reflexivity.
  - intros soup book_url r H.
    destruct (book_details_inv _ _ _ H)
      as (t & pt & a & s & c & g & u & p & _ & Hpt & Hp & _ & _ & _ & _ & _ & ->).
    by exists pt.
Qed.

Lemma price_parsed_witness :
  parse_price ("£" +:+ "51" +:+ "." +:+ "77") = Ok (Qred (decimal_value "51" "77")) ∧
  Qred (decimal_value "51" "77") = (5177 # 100)%Q.
Proof.
  split.
  - apply (proj1 price_parsed "£" "51" "77"); vm_compute; congruence.
  - vm_compute. reflexivity.
Defined.

End ExtractClaims.

(** ** The category crawl *)

Section CrawlClaims.
Import Bs4 Scraper Fixtures.
Local Open Scope Z_scope.

(** C6.  With a positive limit [L] a category crawl returns at most [L]
    records; as soon as the count has reached [L] the loop over the books of
    the current page stops without visiting the next book, and the crawl
    returns without fetching another page.  Over three pages of twenty books
    with [limit=25] exactly the first 25 books are returned, and neither the
    sixth and later books of page 2, nor page 3 or its books, are fetched. *)
Theorem limit_stops_traversal :
  (∀ (web : string → response) (urljoin : string → string → string) (L : Z),
     0 < L →
     (∀ fuel url tr bs,
        scrape_category web urljoin fuel url (Some L) = (tr, Returns bs) →
        Z.of_nat (length bs) ≤ L) ∧
     (∀ url books st,
        L ≤ st.2 → scrape_books web urljoin url (Some L) books st = ([], Returns st)) ∧
     (∀ fuel url n st tr st',
        status_code (web (page_url url n)) = 200 →
        scrape_books web urljoin (page_url url n) (Some L)
          (books_on (content (web (page_url url n)))) st = (tr, Returns st') →
        L ≤ st'.2 →
        scrape_pages web urljoin (S fuel) url (Some L) n st =
        (Get (page_url url n) :: tr, Returns st'.1))) ∧
  (∀ extra : nat,
     scrape_category travel_site urljoin_absolute (extra + 2) travel_url (Some 25) =
     (first_25_trace, Returns (travel_book <$> seq 1 25))) ∧
  Forall (λ i, Get (item_url i) ∉ first_25_trace) (seq 26 35) ∧
  Get (page_url travel_url 3) ∉ first_25_trace.
Proof.
  split; [| split; [| split]].
  - intros web urljoin L HL. split; [| split].
    + intros fuel url tr bs H.
      destruct (scrape_pages_returns _ _ _ _ _ _ _ _ _ H) as (new & -> & Hb).
      specialize (Hb L eq_refl HL). simpl in *. lia.
    + intros url books st Hst. apply scrape_books_stop. unfold limit_reached.
      by rewrite !bool_decide_eq_true_2 by lia.
    + intros fuel url n st tr st' Hs Hb Hst. rewrite scrape_pages_S. cbn zeta.
      rewrite bool_decide_eq_true_2 by done. unfold books_on in Hb.
      destruct (select [] _ _) as [|b books].
      * by inversion Hb; subst.
      * rewrite Hb. unfold limit_reached.
        by rewrite !bool_decide_eq_true_2 by lia.
  - intros extra. unfold scrape_category. apply scrape_pages_enough_fuel; [| done].
    vm_compute. reflexivity.
  - apply (bool_decide_eq_true_1 _). vm_compute. reflexivity.
  - apply (bool_decide_eq_true_1 _). vm_compute. reflexivity.
Qed.

Lemma limit_stops_traversal_witness :
  scrape_category travel_site urljoin_absolute 2 travel_url (Some 25) =
    (first_25_trace, Returns (travel_book <$> seq 1 25)) ∧
  Z.of_nat (length (travel_book <$> seq 1 25)) ≤ 25.
Proof.
  assert (scrape_category travel_site urljoin_absolute 2 travel_url (Some 25) =
          (first_25_trace, Returns (travel_book <$> seq 1 25))) as Hrun
    by (vm_compute; reflexivity).
  split; [exact Hrun |].
  apply (proj1 (proj1 limit_stops_traversal travel_site urljoin_absolute 25 ltac:(lia))
           2%nat travel_url first_25_trace _ Hrun).
Defined.



(** C8.  When the category address does not contain [index.html], the
    address of every page index is the category address itself, so every
    turn of the pagination fetches the first page again: continuing at any
    page index is the same as starting over at page 1 with the records
    gathered so far.  The test path of the main program paginates the site
    root, which is such an address; there, when one book of the root page is
    not served, the root page is fetched a second time and its first book is
    recorded twice. *)
Theorem page_token_absent :
  (∀ url : string,
     PyStr.contains "index.html" url = false →
     (∀ n, 2 ≤ n → page_url url n = url) ∧
     (∀ web urljoin fuel limit n st,
        scrape_pages web urljoin fuel url limit n st =
        scrape_pages web urljoin fuel url limit 1 st)) ∧
  PyStr.contains "index.html" base_url = false ∧
  (∀ web urljoin fuel,
     scrape_main_page web urljoin fuel = scrape_pages web urljoin fuel base_url (Some 20) 1 ([], 0)) ∧
  (∀ extra : nat,
     scrape_main_page shop_site_book3_down urljoin_absolute (extra + 2) =
     (Get base_url :: (seq 1 20 ≫= visit) ++ Get base_url :: visit 1,
      Returns ((travel_book <$> seq 1 2 ++ seq 4 17) ++ [travel_book 1]))).
Proof.
  split; [| split; [| split]].
  - intros url H. split.
    + intros n _. by apply page_url_without_token.
    + intros. by apply scrape_pages_without_token.
  - vm_compute. reflexivity.
  - reflexivity.
  - intros extra. unfold scrape_main_page, scrape_category.
    apply scrape_pages_enough_fuel; [| done]. vm_compute. reflexivity.
Qed.

Lemma page_token_absent_witness :
  page_url base_url 2 = base_url ∧ page_url base_url 3 = base_url.
Proof.
  split; apply (proj1 (proj1 page_token_absent base_url ltac:(vm_compute; reflexivity)));
    lia.
Defined.

(** C9.  [limit=0] behaves as no limit at all: the two calls send the same
    requests and end the same way for every site and every category, and over
    three pages of twenty books [limit=0] returns all sixty books. *)
Theorem limit_zero_is_unlimited :
  (∀ (web : string → response) (urljoin : string → string → string)
     (fuel : nat) (url : string),
     scrape_category web urljoin fuel url (Some 0) =
     scrape_category web urljoin fuel url None) ∧
  (∀ extra : nat,
     scrape_category travel_site urljoin_absolute (extra + 3) travel_url (Some 0) =
     (all_60_trace, Returns (travel_book <$> seq 1 60))).
Proof.
  split.
  - intros web urljoin fuel url. unfold scrape_category.
    apply scrape_pages_limit_zero.
  - intros extra. unfold scrape_category.
    apply scrape_pages_enough_fuel; [| done]. vm_compute. reflexivity.
Qed.



(** C1 (as amended).  When [extract_book_data] returns nothing for a book,
    which happens when its page is not served with status 200, the crawl
    skips the book and goes on with the remaining books and categories.  An
    exception raised by the extraction of a malformed page is not caught: it
    ends the loop over the books, the category and the loop over the
    categories.  For a one-page category of two books, the first extractable:
    when the page of the second is not served the crawl returns exactly one
    record, and the crawl of all categories goes on with the next category;
    when the second page lacks its price node the crawl ends with
    [AttributeError], and so does the crawl of all categories, before the
    next category is visited. *)
Theorem unreachable_item_is_skipped :
  (∀ (web : string → response) (urljoin : string → string → string)
     url limit b rest st href,
     limit_reached limit st.2 = false →
     book_href b = Ok href →
     (status_code (web (urljoin url href)) ≠ 200 →
        scrape_books web urljoin url limit (b :: rest) st =
        (Get (urljoin url href) :: Sleep :: (scrape_books web urljoin url limit rest st).1,
         (scrape_books web urljoin url limit rest st).2)) ∧
     (∀ e, status_code (web (urljoin url href)) = 200 →
        book_details (content (web (urljoin url href))) (urljoin url href) = Raise e →
        scrape_books web urljoin url limit (b :: rest) st =
        ([Get (urljoin url href)], Raises e))) ∧
  (∀ (web : string → response) (urljoin : string → string → string)
     fuel limit url rest books_data tr e,
     scrape_category web urljoin fuel url limit = (tr, Raises e) →
     scrape_links web urljoin fuel limit (url :: rest) books_data = (tr, Raises e)) ∧
  (∀ extra : nat,
     scrape_category poetry_site_item_down urljoin_absolute (extra + 1) poetry_url None =
     ([Get poetry_url; Get light_url; Sleep; Get priceless_url; Sleep],
      Returns [light_book])) ∧
  (∀ extra : nat,
     scrape_category poetry_site urljoin_absolute (extra + 1) poetry_url None =
     ([Get poetry_url; Get light_url; Sleep; Get priceless_url],
      Raises AttributeError)) ∧
  (∀ extra : nat,
     scrape_all_categories shop_site_item_down urljoin_absolute (extra + 1) [] 10 =
     ([Get base_url; Get poetry_url; Get light_url; Sleep; Get priceless_url; Sleep;
       Get travel_url] ++ (seq 1 10 ≫= visit),
      Returns (light_book :: (travel_book <$> seq 1 10)))) ∧
  (∀ extra : nat,
     scrape_all_categories shop_site urljoin_absolute (extra + 1) [] 10 =
     ([Get base_url; Get poetry_url; Get light_url; Sleep; Get priceless_url],
      Raises AttributeError)).
Proof.
  split; [| split; [| split; [| split; [| split]]]].
  - intros web urljoin url limit b rest st href Hl Hh. split.
    + by apply scrape_books_skip.
    + intros e. by apply scrape_books_raise.
  - intros web urljoin fuel limit url rest books_data tr e.
    apply scrape_links_raises.
  - intros extra. unfold scrape_category.
    apply scrape_pages_enough_fuel; [| done]. vm_compute. reflexivity.
  - intros extra. unfold scrape_category.
    apply scrape_pages_enough_fuel; [| done]. vm_compute. reflexivity.
  - intros extra. apply scrape_all_categories_enough_fuel; [| done].
    vm_compute. reflexivity.
  - intros extra. apply scrape_all_categories_enough_fuel; [| done].
    vm_compute. reflexivity.
Qed.

Lemma unreachable_item_is_skipped_witness :
  scrape_books poetry_site_item_down urljoin_absolute poetry_url None
    [product_pod priceless_url] ([light_book], 1) =
  ([Get priceless_url; Sleep], Returns ([light_book], 1)).
Proof.
  apply (proj1 (proj1 unreachable_item_is_skipped poetry_site_item_down urljoin_absolute
                  poetry_url None (product_pod priceless_url) [] ([light_book], 1)
                  priceless_url ltac:(reflexivity) ltac:(vm_compute; reflexivity))).
  vm_compute. discriminate.
Defined.

(** C1, as stated, fails: with one extractable book and one whose price
    node is absent the crawl ends with [AttributeError], whatever the number
    of pages it is allowed to visit, and no record is returned. *)
Lemma malformed_item_aborts_crawl :
  book_details light_in_the_attic light_url = Ok light_book ∧
  find "p" "price_color" priceless = None ∧
  books_on poetry_listing ≠ [] ∧ length (books_on poetry_listing) = 2%nat ∧
  scrape_category poetry_site urljoin_absolute 1 poetry_url None =
    ([Get poetry_url; Get light_url; Sleep; Get priceless_url], Raises AttributeError) ∧
  ¬ ∃ fuel tr bs,
      scrape_category poetry_site urljoin_absolute fuel poetry_url None = (tr, Returns bs).
Proof.
  assert (scrape_category poetry_site urljoin_absolute 1 poetry_url None =
          ([Get poetry_url; Get light_url; Sleep; Get priceless_url], Raises AttributeError))
    as Hrun by (vm_compute; reflexivity).
  split; [vm_compute; reflexivity |]. split; [vm_compute; reflexivity |].
  split; [vm_compute; discriminate |]. split; [vm_compute; reflexivity |].
  split; [exact Hrun |].
  intros (fuel & tr & bs & H). destruct fuel as [|fuel].
  - vm_compute in H. discriminate H.
  - unfold scrape_category in *.
    rewrite <- (Nat.add_1_r fuel) in H.
    rewrite (scrape_pages_enough_fuel _ _ _ fuel _ _ _ _ _ _ Hrun) in H by done.
    discriminate H.
Qed.

End CrawlClaims.

(** ** More about the extraction *)

Section ExtractMore.
Import Bs4 Scraper Fixtures.
Local Open Scope Z_scope.

Lemma digit_value_nonneg (c : ascii) : PyStr.isdigit c = true → 0 ≤ PyStr.digit_value c ≤ 9.
Proof.
  unfold PyStr.isdigit, PyStr.digit_value.
  intros [H1 H2]%andb_true_iff. apply N.leb_le in H1, H2. lia.
Qed.

Lemma int_from_nonneg (acc : Z) (s : string) :
  0 ≤ acc → digits s → 0 ≤ PyStr.int_from acc s.
Proof.
  revert acc. induction s as [|c s IH]; intros acc Hacc Hd; [done |].
  apply digits_cons in Hd as [Hc Hs]. simpl. apply IH; [| done].
  pose proof (digit_value_nonneg _ Hc). lia.
Qed.

Lemma stock_count_of_nonneg (s : string) : 0 ≤ stock_count_of s.
Proof.
  unfold stock_count_of. destruct (PyStr.search_available s) as [ds|] eqn:E; [| done].
  destruct (search_available_sound _ _ E) as (_ & Hd & _).
  by apply int_from_nonneg.
Qed.

Lemma rating_of_range (c : string) : 0 ≤ rating_of c ≤ 5.
Proof.
  unfold rating_of, rating_map. rewrite !lookup_insert.
  repeat case_decide; simpl; try lia. rewrite lookup_empty. simpl. lia.
Qed.

Lemma parse_price_nonneg (pt : string) (p : Q) :
  parse_price pt = Ok p → (0 <= p)%Q.
Proof.
  unfold parse_price, PyStr.float.
  destruct (PyStr.split_dot _) as [ip fp].
  destruct (PyStr.forallb PyStr.isdigit ip && _ && _) eqn:E; [| done].
  intros [= <-].
  apply andb_true_iff in E as [E _]. apply andb_true_iff in E as [Hip Hfp].
  rewrite Qred_correct. unfold Qle. simpl. rewrite Z.mul_1_r.
  apply int_from_nonneg; [done |]. unfold digits.
  by rewrite forallb_append, Hip, Hfp.
Qed.

(** X1.  A record returned by [extract_book_data] comes from a page served
    with status 200, carries the address that was requested, and has a
    rating between 0 and 5, a stock count and a price that are not
    negative. *)
Theorem extracted_record_ranges (web : string → response) (book_url : string) (r : book) :
  (extract_book_data web book_url).2 = Returns (Some r) →
  status_code (web book_url) = 200 ∧
  url r = book_url ∧
  0 ≤ rating r ≤ 5 ∧
  0 ≤ stock_count r ∧
  (0 <= price r)%Q.
Proof.
  intros H.
  destruct (decide (status_code (web book_url) = 200)) as [Hs|Hs];
    [| by rewrite (extract_unreachable _ _ Hs) in H].
  destruct (book_details (content (web book_url)) book_url) as [d|e] eqn:E;
    [| by rewrite (extract_raises _ _ _ Hs E) in H].
  rewrite (extract_returns _ _ _ Hs E) in H. injection H as ->.
  destruct (book_details_inv _ _ _ E)
    as (t & pt & a & s & c & g & u & p & _ & _ & Hp & _ & _ & _ & _ & _ & ->).
  cbn [url rating stock_count price].
  split; [done |]. split; [done |]. split; [apply rating_of_range |].
  split; [apply stock_count_of_nonneg | by apply (parse_price_nonneg pt)].
Qed.

Lemma extracted_record_ranges_witness :
  (extract_book_data poetry_site light_url).2 = Returns (Some light_book) ∧
  0 ≤ rating light_book ≤ 5 ∧ 0 ≤ stock_count light_book.
Proof.
  assert ((extract_book_data poetry_site light_url).2 = Returns (Some light_book)) as H
    by (vm_compute; reflexivity).
  split; [exact H |].
  destruct (extracted_record_ranges poetry_site light_url light_book H)
    as (_ & _ & Hr & Hc & _).
  split; [exact Hr | exact Hc].
Defined.

(** What [find] returns satisfies its filter. *)
Lemma locate_holds (p : node → bool) (l : list node) (n : node) (rest : list node) :
  locate p l = Some (n, rest) → p n = true.
Proof.
  induction l as [|x l IH]; [done |]. simpl.
  destruct (p x) eqn:E; [| done]. by intros [= <- _].
Qed.

Lemma find_has_class (nm c : string) (soup p : node) :
  find nm c soup = Some p → is_named nm p = true ∧ has_class c p = true.
Proof.
  unfold find, first_of. destruct (locate _ _) as [[n rest]|] eqn:E; [| done].
  intros [= <-]. apply locate_holds in E. by apply andb_true_iff in E.
Qed.

Lemma find_getitem_class (nm c : string) (soup p : node) :
  find nm c soup = Some p → ∃ v, getitem "class" p = Ok v.
Proof.
  intros [_ H]%find_has_class. unfold has_class, getitem in *.
  destruct (get_attr "class" p) as [v|]; [by exists v | done].
Qed.

Lemma lower_char_same (a b : ascii) :
  same_letter a b → PyStr.lower_char a = PyStr.lower_char b.
Proof.
  assert (∀ x, is_upper x = true →
            PyStr.lower_char x = Ascii.ascii_of_N (Ascii.N_of_ascii x + 32) ∧
            PyStr.lower_char (Ascii.ascii_of_N (Ascii.N_of_ascii x + 32)) =
              Ascii.ascii_of_N (Ascii.N_of_ascii x + 32)) as Hup.
  { intros x Hx. unfold is_upper, PyStr.lower_char in *. cbn zeta in *.
    rewrite Hx. split; [done |].
    pose proof Hx as [H1 H2]%andb_true_iff. apply N.leb_le in H1, H2.
    rewrite Ascii.N_ascii_embedding by lia.
    assert ((Ascii.N_of_ascii x + 32 <=? 90)%N = false) as -> by (apply N.leb_gt; lia).
    by rewrite andb_false_r. }
  intros [-> | [[Ha ->] | [Hb ->]]]; [done | |].
  - destruct (Hup _ Ha) as [-> ->]. done.
  - destruct (Hup _ Hb) as [-> ->]. done.
Qed.

Lemma lower_same (s t : string) : same_letters s t → PyStr.lower s = PyStr.lower t.
Proof.
  revert t. induction s as [|a s IH]; intros [|b t] H; try done.
  destruct H as [Hab Hst]. simpl. by rewrite (lower_char_same _ _ Hab), (IH _ Hst).
Qed.

(** X2.  The rating word is matched whatever its case: when the second class
    of the star-rating paragraph spells, in any mix of upper and lower case,
    the [i]-th of the words one..five, the rating of an extracted record is
    [i], counting from 1. *)
Theorem rating_any_case (soup p : node) (c w : string) (i : nat) :
  find "p" "star-rating" soup = Some p →
  class_list p !! 1%nat = Some c →
  same_letters c w →
  rating_words !! i = Some w →
  rating_class_of soup = Ok w ∧
  ∀ book_url r, book_details soup book_url = Ok r → rating r = Z.of_nat i + 1.
Proof.
  intros Hf Hc Hsame Hw.
  assert (PyStr.lower w = w ∧ rating_of w = Z.of_nat i + 1) as [Hlow Hval].
  { unfold rating_words in Hw.
    do 5 (destruct i as [|i]; [injection Hw as <-; by vm_compute |]). done. }
  assert (rating_class_of soup = Ok w) as Hrc.
  { unfold rating_class_of. rewrite Hf. simpl.
    destruct (find_getitem_class _ _ _ _ Hf) as [v ->]. simpl. rewrite Hc. simpl.
    by rewrite (lower_same _ _ Hsame), Hlow. }
  split; [done |]. intros book_url r Hr.
  destruct (book_details_inv _ _ _ Hr)
    as (t & pt & a & s & c' & g & u & q & _ & _ & _ & _ & _ & Hc' & _ & _ & ->).
  cbn [rating]. rewrite Hrc in Hc'. by injection Hc' as <-.
Qed.

Lemma rating_any_case_witness :
  rating_class_of light_in_the_attic = Ok "three" ∧
  rating light_book = 3.
Proof.
  destruct (rating_any_case light_in_the_attic (star_p "Three") "Three" "three" 2)
    as [Hc Hr].
  - vm_compute. reflexivity.
  - vm_compute. reflexivity.
  - simpl. unfold same_letter. repeat split; try (by left).
    right. left. split; vm_compute; reflexivity.
  - reflexivity.
  - split; [exact Hc |]. apply (Hr light_url). vm_compute. reflexivity.
Defined.



Lemma forallb_filter (f : ascii → bool) (s : string) :
  PyStr.forallb f (PyStr.filter f s) = true.
Proof.
  induction s as [|c s IH]; [done |]. simpl.
  destruct (f c) eqn:E; [simpl; by rewrite E | done].
Qed.

Lemma filter_filter (f g : ascii → bool) (s : string) :
  (∀ c, g c = true → f c = true) →
  PyStr.filter g (PyStr.filter f s) = PyStr.filter g s.
Proof.
  intros Hgf. induction s as [|c s IH]; [done |]. simpl.
  destruct (f c) eqn:Ef; simpl.
  - by rewrite IH.
  - destruct (g c) eqn:Eg; [| done]. apply Hgf in Eg. congruence.
Qed.

(** In a string of digits and dots, the digits are what is not a dot. *)
Lemma digits_or_dots (t : string) :
  PyStr.forallb (λ c, PyStr.isdigit c || PyStr.is_dot c) t = true →
  PyStr.forallb PyStr.isdigit t = bool_decide (count_dots t = 0%nat) ∧
  (count_dots t = 0%nat → PyStr.filter PyStr.isdigit t = t).
Proof.
  unfold count_dots. induction t as [|c t IH]; [done |]. simpl.
  intros [Hc Ht]%andb_true_iff. destruct (IH Ht) as [IH1 IH2].
  destruct (PyStr.isdigit c) eqn:Ed.
  - rewrite (isdigit_not_dot _ Ed). simpl. split; [done |].
    intros H0. by rewrite IH2.
  - simpl in Hc. rewrite Hc. simpl. split; [done | done].
Qed.

Lemma split_dot_spec (s ip : string) (fp : option string) :
  PyStr.forallb (λ c, PyStr.isdigit c || PyStr.is_dot c) s = true →
  PyStr.split_dot s = (ip, fp) →
  digits ip ∧
  PyStr.forallb (λ c, PyStr.isdigit c || PyStr.is_dot c) (default EmptyString fp) = true ∧
  PyStr.filter PyStr.isdigit s = ip +:+ PyStr.filter PyStr.isdigit (default EmptyString fp) ∧
  count_dots s = (match fp with Some _ => 1 | None => 0 end +
                  count_dots (default EmptyString fp))%nat.
Proof.
  unfold count_dots.
  revert ip fp. induction s as [|c s IH]; intros ip fp Hs H; simpl in H.
  - by injection H as <- <-.
  - simpl in Hs. apply andb_true_iff in Hs as [Hc Hs].
    destruct (PyStr.is_dot c) eqn:Edot.
    + injection H as <- <-. simpl. rewrite Edot.
      assert (PyStr.isdigit c = false) as ->.
      { destruct (PyStr.isdigit c) eqn:E; [| done].
        apply isdigit_not_dot in E. congruence. }
      done.
    + destruct (PyStr.split_dot s) as [a b] eqn:E. injection H as <- <-.
      destruct (IH _ _ Hs eq_refl) as (Hd & Hf & Hdig & Hdots).
      rewrite orb_false_r in Hc. simpl. rewrite Hc, Edot.
      split; [by apply digits_cons |]. split; [done |].
      split; [by rewrite Hdig | done].
Qed.

(** X4.  The price text is accepted exactly when it has at least one digit
    and at most one dot, whatever other characters it contains; otherwise
    [float] raises [ValueError]. *)
Theorem price_accepted (pt : string) :
  is_ok (parse_price pt) = has_digit pt && bool_decide (count_dots pt ≤ 1)%nat ∧
  (is_ok (parse_price pt) = false → parse_price pt = Raise ValueError).
Proof.
  assert (has_digit (PyStr.sub_non_numeric pt) = has_digit pt ∧
          count_dots (PyStr.sub_non_numeric pt) = count_dots pt) as [Hhd Hcd].
  { unfold has_digit, count_dots, PyStr.sub_non_numeric.
    rewrite !filter_filter; [done | |].
    - intros c ->. apply orb_true_r.
    - by intros c ->. }
  rewrite <- Hhd, <- Hcd. unfold parse_price.
  pose proof (forallb_filter (λ c, PyStr.isdigit c || PyStr.is_dot c) pt) as Hall.
  fold (PyStr.sub_non_numeric pt) in Hall.
  generalize dependent (PyStr.sub_non_numeric pt). intros s _ _ Hall.
  unfold PyStr.float. destruct (PyStr.split_dot s) as [ip fp] eqn:E.
  destruct (split_dot_spec _ _ _ Hall E) as (Hip & Hfp & Hdig & Hdots).
  destruct (digits_or_dots _ Hfp) as [Hd1 Hd2].
  unfold digits in Hip. rewrite Hip, Hd1. cbn [andb].
  unfold has_digit. rewrite Hdig, Hdots.
  destruct (decide (count_dots (default EmptyString fp) = 0%nat)) as [H0|H0].
  - rewrite bool_decide_eq_true_2 by done. rewrite (Hd2 H0), H0. cbn [andb].
    rewrite (bool_decide_eq_true_2 (_ ≤ 1)%nat) by (destruct fp; simpl; lia).
    rewrite andb_true_r.
    destruct (bool_decide (ip +:+ default EmptyString fp = EmptyString)); done.
  - rewrite bool_decide_eq_false_2 by done. cbn [andb is_ok].
    destruct fp as [r|].
    + rewrite (bool_decide_eq_false_2 (_ ≤ 1)%nat) by (simpl in *; lia).
      by rewrite andb_false_r.
    + simpl in H0. done.
Qed.







End ExtractMore.

(** ** More about the category crawl *)

Section CrawlMore.
Import Bs4 Scraper Fixtures.
Local Open Scope Z_scope.

Variable web : string → response.
Variable urljoin : string → string → string.

(** X6.  A negative limit lets no book through: the crawl requests the
    first listing page only and returns no record. *)
Theorem negative_limit (fuel : nat) (url : string) (L : Z) :
  L < 0 →
  scrape_category web urljoin (S fuel) url (Some L) = ([Get url], Returns []).
Proof.
  intros HL. unfold scrape_category. rewrite scrape_pages_S. cbn zeta.
  change (page_url url 1) with url.
  destruct (bool_decide _); [| done].
  destruct (select [] _ _) as [|b books]; [done |].
  rewrite scrape_books_stop.
  - cbn [snd fst]. unfold limit_reached. by rewrite !bool_decide_eq_true_2 by lia.
  - unfold limit_reached. cbn [snd]. by rewrite !bool_decide_eq_true_2 by lia.
Qed.

(** X7.  A category whose first page is not served, or lists no book,
    gives no record after a single request, whatever the limit. *)
Theorem empty_category (fuel : nat) (url : string) (limit : option Z) :
  status_code (web url) ≠ 200 ∨ books_on (content (web url)) = [] →
  scrape_category web urljoin (S fuel) url limit = ([Get url], Returns []).
Proof.
  intros H. unfold scrape_category. rewrite scrape_pages_S. cbn zeta.
  change (page_url url 1) with url.
  destruct H as [H|H].
  - by rewrite bool_decide_eq_false_2.
  - unfold books_on in H. rewrite H. by destruct (bool_decide _).
Qed.

(** X8.  Pagination ends at the latest at the first page address that is not
    served: when the address of page [n + k] is not served, the loop started
    at page [n] is over after at most [k + 1] pages. *)
Theorem pagination_terminates (k : nat) (url : string) (limit : option Z)
    (n : Z) (st : progress) :
  status_code (web (page_url url (n + Z.of_nat k))) ≠ 200 →
  (scrape_pages web urljoin (S k) url limit n st).2 ≠ Unfinished.
Proof.
  revert n st. induction k as [|k IH]; intros n st Hs.
  - rewrite scrape_pages_S. cbn zeta. rewrite Z.add_0_r in Hs.
    by rewrite bool_decide_eq_false_2.
  - rewrite scrape_pages_S. cbn zeta.
    destruct (bool_decide _); [| done].
    destruct (select [] _ _) as [|b books]; [done |].
    destruct (scrape_books _ _ _ _ _ _) as [tr1 [st'| e |]] eqn:E; [| done |].
    + destruct (limit_reached limit st'.2); [done |].
      destruct (select_one _ _ _); [| done]. cbn [snd].
      apply IH. by replace (n + 1 + Z.of_nat k) with (n + Z.of_nat (S k)) by lia.
    + pose proof (scrape_books_finished web urljoin
                    (page_url url n) limit (b :: books) st) as Hf.
      by rewrite E in Hf.
Qed.

(** A page none of whose books raises is handled to its end. *)
Lemma quiet_books_return (url : string) (limit : option Z) (books : list node)
    (st : progress) :
  Forall (λ b, quiet web urljoin url b = true) books →
  ∃ tr st', scrape_books web urljoin url limit books st = (tr, Returns st').
Proof.
  intros Hq. revert st. induction Hq as [|b rest Hb _ IH]; intros st; [by eexists _, _ |].
  rewrite scrape_books_cons. destruct (limit_reached limit st.2); [by eexists _, _ |].
  unfold quiet in Hb. destruct (book_href b) as [href|]; [| done]. cbn zeta.
  destruct (decide (status_code (web (urljoin url href)) = 200)) as [Hs|Hs].
  - rewrite bool_decide_eq_true_2 in Hb by done. cbn [negb orb] in Hb.
    destruct (book_details _ _) as [d|] eqn:Ed; [| done].
    rewrite (extract_returns _ _ _ Hs Ed). cbn [snd].
    destruct (IH (record_book (Some d) st)) as (tr & st' & ->). by eexists _, _.
  - rewrite (extract_unreachable _ _ Hs). cbn [snd].
    destruct (IH (record_book None st)) as (tr & st' & ->). by eexists _, _.
Qed.

(** X9.  Without limit ([None] or [0]) the crawl of an address that lacks
    [index.html] never returns when the page at that address is served, lists
    at least one book, has a next link and none of its books raises: whatever
    the number of pages the loop may visit, it is still running. *)
Theorem pagination_never_returns (url : string) (limit : option Z) :
  PyStr.contains "index.html" url = false →
  limit = None ∨ limit = Some 0 →
  status_code (web url) = 200 →
  books_on (content (web url)) ≠ [] →
  next_button (content (web url)) ≠ None →
  Forall (λ b, quiet web urljoin url b = true) (books_on (content (web url))) →
  ∀ fuel, (scrape_category web urljoin fuel url limit).2 = Unfinished.
Proof.
  intros Htok Hlim Hs Hbooks Hnext Hq fuel. unfold scrape_category.
  assert (∀ c, limit_reached limit c = false) as Hnever.
  { intros c. destruct Hlim as [-> | ->]; [done | apply limit_reached_zero]. }
  generalize (([], 0) : progress). generalize 1.
  induction fuel as [|fuel IH]; intros n st; [done |].
  rewrite scrape_pages_S. cbn zeta. rewrite (page_url_without_token _ n Htok).
  rewrite bool_decide_eq_true_2 by done.
  unfold books_on, next_button in *.
  destruct (select [] _ _) as [|b books] eqn:Eb; [done |].
  destruct (quiet_books_return url limit (b :: books) st Hq) as (tr & st' & ->).
  rewrite Hnever. destruct (select_one _ _ _); [| done]. cbn [snd]. apply IH.
Qed.

End CrawlMore.

Lemma negative_limit_witness :
  scrape_category travel_site urljoin_absolute 1 travel_url (Some (-1)) =
  ([Get travel_url], Returns []).
Proof. apply (negative_limit travel_site urljoin_absolute 0 travel_url (-1)). lia. Defined.

Lemma empty_category_witness :
  scrape_category poetry_site urljoin_absolute 1 travel_url (Some 10%Z) =
  ([Get travel_url], Returns []).
Proof.
  apply (empty_category poetry_site urljoin_absolute 0 travel_url (Some 10%Z)).
  left. vm_compute. discriminate.
Defined.

Lemma pagination_terminates_witness :
  ∃ o, (scrape_pages travel_site urljoin_absolute 4 travel_url None 1 ([], 0%Z)).2 = o ∧
       o ≠ Unfinished.
Proof.
  eexists. split; [reflexivity |].
  apply (pagination_terminates travel_site urljoin_absolute 3 travel_url None 1 ([], 0%Z)).
  vm_compute. discriminate.
Defined.

Lemma pagination_never_returns_witness :
  (scrape_category shop_site urljoin_absolute 7 base_url None).2 = Unfinished.
Proof.
  apply (pagination_never_returns shop_site urljoin_absolute base_url None).
  - vm_compute. reflexivity.
  - left. reflexivity.
  - vm_compute. reflexivity.
  - vm_compute. discriminate.
  - vm_compute. discriminate.
  - apply Forall_forall. intros b Hb. apply (bool_decide_eq_true_1 _).
    revert b Hb. apply Forall_forall. apply (bool_decide_eq_true_1 _).
    vm_compute. reflexivity.
Defined.

(** ** What a crawl records and requests *)

Section CrawlRecords.
Import Bs4 Scraper Fixtures.
Local Open Scope Z_scope.

Variable web : string → response.
Variable urljoin : string → string → string.

Lemma book_details_url (soup : node) (book_url : string) (r : book) :
  book_details soup book_url = Ok r → url r = book_url.
Proof.
  intros H. destruct (book_details_inv _ _ _ H)
    as (t & pt & a & s & c & g & u & p & _ & _ & _ & _ & _ & _ & _ & _ & ->). done.
Qed.

Lemma requested_in_mono (tr tr' : list event) (r : book) :
  tr ⊆ tr' → requested_in web tr r → requested_in web tr' r.
Proof. intros Hsub (Hin & Hs & Hd). split; [by apply Hsub | done]. Qed.

Lemma scrape_books_records (url : string) (limit : option Z) (books : list node)
    (st st' : progress) (tr : list event) :
  scrape_books web urljoin url limit books st = (tr, Returns st') →
  ∃ new, st'.1 = st.1 ++ new ∧ Forall (requested_in web tr) new.
Proof.
  revert st tr. induction books as [|b rest IH]; intros st tr H.
  - inversion H; subst. exists []. by rewrite app_nil_r.
  - rewrite scrape_books_cons in H.
    destruct (limit_reached limit st.2).
    { inversion H; subst. exists []. by rewrite app_nil_r. }
    destruct (book_href b) as [href|e]; [| done]. cbn zeta in H.
    destruct (extract_book_data web (urljoin url href)) as [tr0 [data| e |]] eqn:E;
      cbn [snd] in H; [| done | done].
    destruct (scrape_books web urljoin url limit rest (record_book data st))
      as [tr1 o1] eqn:E1.
    cbn [fst snd] in H. inversion H; subst tr o1. clear H.
    destruct (IH _ _ E1) as (new & Hnew & Hall).
    assert (Forall (requested_in web (Get (urljoin url href) :: Sleep :: tr1)) new) as Hall'.
    { eapply Forall_impl; [| exact Hall]. intros r. apply requested_in_mono.
      set_solver. }
    destruct data as [d|]; cbn [record_book fst] in Hnew.
    + exists (d :: new). split; [by rewrite Hnew, <- app_assoc |].
      constructor; [| done].
      assert (status_code (web (urljoin url href)) = 200) as Hs.
      { destruct (decide (status_code (web (urljoin url href)) = 200)); [done |].
        rewrite extract_unreachable in E by done. by inversion E. }
      destruct (book_details (content (web (urljoin url href))) (urljoin url href))
        as [d'|e] eqn:Ed.
      * rewrite (extract_returns _ _ _ Hs Ed) in E. inversion E; subst d'.
        unfold requested_in. rewrite (book_details_url _ _ _ Ed).
        split; [set_solver | done].
      * rewrite (extract_raises _ _ _ Hs Ed) in E. by inversion E.
    + by exists new.
Qed.

(** X10.  Every record that a category crawl returns is the extraction of a
    page that the crawl requested and that was served with status 200; its
    [url] field is the address of that page. *)
Theorem records_come_from_requests (fuel : nat) (category_url : string)
    (limit : option Z) (tr : list event) (bs : list book) :
  scrape_category web urljoin fuel category_url limit = (tr, Returns bs) →
  Forall (requested_in web tr) bs.
Proof.
  unfold scrape_category.
  cut (∀ n st, scrape_pages web urljoin fuel category_url limit n st = (tr, Returns bs) →
               ∃ new, bs = st.1 ++ new ∧ Forall (requested_in web tr) new).
  { intros Hcut H. destruct (Hcut _ _ H) as (new & -> & Hall). done. }
  revert tr bs. induction fuel as [|fuel' IH]; intros tr bs n st H; [done |].
  rewrite scrape_pages_S in H. cbn zeta in H.
  destruct (bool_decide _).
  2:{ inversion H; subst. exists []. by rewrite app_nil_r. }
  destruct (select [] _ _) as [|b books].
  { inversion H; subst. exists []. by rewrite app_nil_r. }
  destruct (scrape_books _ _ _ _ _ _) as [tr1 [st'| e |]] eqn:E; [| done | done].
  destruct (scrape_books_records _ _ _ _ _ _ E) as (new1 & Hnew1 & Hall1).
  assert (∀ tr', Forall (requested_in web (Get (page_url category_url n) :: tr1 ++ tr')) new1)
    as Hall1'.
  { intros tr'. eapply Forall_impl; [| exact Hall1]. intros r.
    apply requested_in_mono. set_solver. }
  destruct (limit_reached limit st'.2).
  { inversion H; subst. exists new1. split; [done |].
    specialize (Hall1' []). by rewrite app_nil_r in Hall1'. }
  destruct (select_one _ _ _).
  2:{ inversion H; subst. exists new1. split; [done |].
      specialize (Hall1' []). by rewrite app_nil_r in Hall1'. }
  destruct (scrape_pages web urljoin fuel' category_url limit (n + 1) st')
    as [tr2 o2] eqn:E2.
  cbn [fst snd] in H. inversion H; subst. clear H.
  destruct (IH _ _ _ _ E2) as (new2 & -> & Hall2).
  exists (new1 ++ new2). split; [by rewrite Hnew1, app_assoc |].
  apply Forall_app. split; [apply Hall1' |].
  eapply Forall_impl; [| exact Hall2]. intros r. apply requested_in_mono. set_solver.
Qed.

(** X11.  In the loop over the books of a page every request is followed by
    the delay, whether the book was recorded or skipped: when the loop
    returns, its events are requests each followed by a delay, one pair for
    each book visited; when it raises, only the last request, the one whose
    extraction raised, has no delay after it. *)
Theorem every_request_is_followed_by_a_delay (url : string) (limit : option Z)
    (books : list node) (st : progress) :
  ∃ urls : list string,
    (length urls ≤ length books)%nat ∧
    match (scrape_books web urljoin url limit books st).2 with
    | Returns _ =>
        (scrape_books web urljoin url limit books st).1 = urls ≫= request_and_delay
    | Raises _ =>
        (scrape_books web urljoin url limit books st).1 = urls ≫= request_and_delay ∨
        ∃ u, (scrape_books web urljoin url limit books st).1 =
             (urls ≫= request_and_delay) ++ [Get u]
    | Unfinished => False
    end.
Proof.
  revert st. induction books as [|b rest IH]; intros st.
  { exists []. split; [done |]. done. }
  rewrite scrape_books_cons.
  destruct (limit_reached limit st.2).
  { exists []. split; [simpl; lia | done]. }
  destruct (book_href b) as [href|e].
  2:{ exists []. split; [simpl; lia |]. by left. }
  cbn zeta.
  pose proof (extract_finished web (urljoin url href)) as Hf.
  destruct (extract_book_data web (urljoin url href)).2 as [data| e |]; [| | done].
  - destruct (IH (record_book data st)) as (urls & Hlen & Hm).
    exists (urljoin url href :: urls). split; [simpl; lia |]. cbn [fst snd].
    destruct (scrape_books web urljoin url limit rest (record_book data st)).2.
    + by rewrite Hm.
    + destruct Hm as [Hm | [u Hm]]; rewrite Hm; [by left | right; by exists u].
    + done.
  - exists []. split; [simpl; lia |]. right. by exists (urljoin url href).
Qed.

(** X12.  When every book of a listing page is extractable, the loop records
    the books in document order and stops exactly at the limit: from a state
    with [count] records it appends the records of the first
    [room limit count n] of the [n] books, requests exactly their pages, and
    counts them. *)
Theorem extractable_page_in_order (url : string) (limit : option Z)
    (books : list node) (ds : list book) (st : progress) :
  0 ≤ st.2 →
  Forall2 (extractable web urljoin url) books ds →
  scrape_books web urljoin url limit books st =
  ((Scraper.url <$> take (room limit st.2 (length ds)) ds) ≫= request_and_delay,
   Returns (st.1 ++ take (room limit st.2 (length ds)) ds,
            st.2 + Z.of_nat (room limit st.2 (length ds)))).
Proof.
  intros Hst Hall. revert st Hst.
  induction Hall as [|b d books ds (href & Hh & Hs & Hd) _ IH]; intros st Hst.
  { assert (room limit st.2 (length (@nil book)) = 0%nat) as ->.
    { unfold room. cbn [length]. destruct limit as [L|]; [| done]. destruct (bool_decide _); [done |].
      lia. }
    destruct st. cbn. by rewrite app_nil_r, Z.add_0_r. }
  rewrite scrape_books_cons. destruct (limit_reached limit st.2) eqn:Hl.
  - assert (room limit st.2 (length (d :: ds)) = 0%nat) as ->.
    { unfold room, limit_reached in *. destruct limit as [L|]; [| done].
      apply andb_true_iff in Hl as [H1 H2].
      apply bool_decide_eq_true_1 in H1, H2.
      rewrite bool_decide_eq_false_2 by done.
      replace (Z.to_nat (L - st.2)) with 0%nat by lia. lia. }
    destruct st. cbn. by rewrite app_nil_r, Z.add_0_r.
  - rewrite Hh. cbn zeta. rewrite (extract_returns _ _ _ Hs Hd). cbn [snd fst record_book].
    rewrite (IH (st.1 ++ [d], st.2 + 1)) by (simpl; lia). cbn [fst snd].
    assert (room limit st.2 (length (d :: ds)) = S (room limit (st.2 + 1) (length ds)))
      as ->.
    { unfold room, limit_reached in *. destruct limit as [L|]; [| done].
      destruct (decide (L = 0)) as [-> | HL0].
      - by rewrite !bool_decide_eq_true_2.
      - rewrite !bool_decide_eq_false_2 by done.
        rewrite bool_decide_eq_true_2 in Hl by done. cbn [andb] in Hl.
        apply bool_decide_eq_false_1 in Hl. cbn [length].
        replace (Z.to_nat (L - st.2)) with (S (Z.to_nat (L - (st.2 + 1)))) by lia.
        lia. }
    cbn [take fmap list_fmap mbind list_bind app request_and_delay].
    rewrite (book_details_url _ _ _ Hd).
    rewrite <- app_assoc. cbn [app]. do 3 f_equal. lia.
Qed.

End CrawlRecords.

Lemma records_come_from_requests_witness :
  Forall (requested_in travel_site first_25_trace) (travel_book <$> seq 1 25).
Proof.
  apply (records_come_from_requests travel_site urljoin_absolute 2 travel_url (Some 25%Z)).
  vm_compute. reflexivity.
Defined.

Lemma extractable_page_in_order_witness :
  scrape_books travel_site urljoin_absolute travel_url (Some 3%Z)
    (books_on (content (travel_site travel_url))) ([], 0%Z) =
  ((item_url <$> seq 1 3) ≫= request_and_delay,
   Returns (travel_book <$> seq 1 3, 3%Z)).
Proof.
  rewrite (extractable_page_in_order travel_site urljoin_absolute travel_url (Some 3%Z)
             (books_on (content (travel_site travel_url))) (travel_book <$> seq 1 20)
             ([], 0%Z)).
  - vm_compute. reflexivity.
  - simpl. lia.
  - assert (books_on (content (travel_site travel_url)) =
            product_pod <$> (item_url <$> seq 1 20)) as -> by (vm_compute; reflexivity).
    cbn [seq fmap list_fmap].
    repeat (constructor;
            [eexists; split; [vm_compute; reflexivity |];
             split; vm_compute; reflexivity |]).
    constructor.
Defined.

(** ** Page addresses *)

Section PageAddresses.
Import Bs4 Scraper Fixtures.
Local Open Scope Z_scope.

Lemma append_snoc_inj (a b : string) (x y : ascii) :
  a +:+ String x EmptyString = b +:+ String y EmptyString → a = b ∧ x = y.
Proof.
  revert b. induction a as [|c a IH]; intros [|d b] H.
  - by injection H.
  - rewrite append_nil_l, append_cons in H. injection H as _ H. by destruct b.
  - rewrite append_nil_l, append_cons in H. injection H as _ H. by destruct a.
  - rewrite !append_cons in H. injection H as -> H.
    destruct (IH _ H) as [-> ->]. done.
Qed.

Lemma append_inj_r (a b c : string) : a +:+ c = b +:+ c → a = b.
Proof.
  revert a b. induction c as [|x c IH]; intros a b H.
  - by rewrite !append_nil_r in H.
  - change (String x c) with (String x EmptyString +:+ c) in H.
    rewrite <- !append_assoc in H. apply IH in H.
    by destruct (append_snoc_inj _ _ _ _ H).
Qed.

Lemma snoc_case (t : string) :
  t = EmptyString ∨ ∃ t' l, t = t' +:+ String l EmptyString.
Proof.
  induction t as [|c t IH]; [by left |]. right.
  destruct IH as [-> | (t' & l & ->)].
  - by exists EmptyString, c.
  - exists (String c t'), l. by rewrite append_cons.
Qed.

(** An occurrence of the token at the start of [String c pre ++ token] lies
    inside the string without its last character. *)
Lemma token_not_at_start (c : ascii) (pre : string) :
  PyStr.startswith "index.html" (String c pre +:+ "index.htm") = false →
  PyStr.startswith "index.html" (String c pre +:+ "index.html") = false.
Proof.
  intros H. destruct (PyStr.startswith "index.html" (String c pre +:+ "index.html")) eqn:E;
    [| done].
  apply startswith_inv in E as [t Ht].
  destruct (snoc_case t) as [-> | (t' & l & ->)].
  - rewrite append_nil_r in Ht.
    assert (String.length (String c pre +:+ "index.html") = String.length "index.html")
      as Hlen by (by rewrite Ht).
    rewrite length_append in Hlen. simpl in Hlen. lia.
  - change "index.html" with ("index.htm" +:+ String "l" EmptyString) in Ht at 1.
    rewrite <- !append_assoc in Ht. apply append_snoc_inj in Ht as [Ht _].
    rewrite Ht, startswith_append in H. done.
Qed.

Lemma replace_token_at_end (new pre : string) :
  PyStr.contains "index.html" (pre +:+ "index.htm") = false →
  PyStr.replace "index.html" new (pre +:+ "index.html") = pre +:+ new.
Proof.
  unfold PyStr.replace. induction pre as [|c pre IH]; intros H.
  - rewrite !append_nil_l. cbn. by rewrite append_nil_r.
  - rewrite append_cons in H. cbn [PyStr.contains] in H.
    apply orb_false_iff in H as [Hhere Hlater]. rewrite <- append_cons in Hhere.
    apply token_not_at_start in Hhere. rewrite append_cons in Hhere |- *.
    cbn [PyStr.replace_from]. rewrite Hhere, (IH Hlater). by rewrite append_cons.
Qed.

(** X13.  For a category address that ends in [index.html] and has no
    earlier occurrence of that token, page [n ≠ 1] is at the address with the
    token replaced by [page-n.html], and different page indices have
    different addresses: the pagination does advance. *)
Theorem page_addresses_distinct (pre : string) (n m : Z) :
  PyStr.contains "index.html" (pre +:+ "index.htm") = false →
  (n ≠ 1 → page_url (pre +:+ "index.html") n = pre +:+ "page-" +:+ pretty n +:+ ".html") ∧
  (n ≠ m → page_url (pre +:+ "index.html") n ≠ page_url (pre +:+ "index.html") m).
Proof.
  intros H.
  assert (∀ k, k ≠ 1 →
            page_url (pre +:+ "index.html") k = pre +:+ "page-" +:+ pretty k +:+ ".html")
    as Hpage.
  { intros k Hk. unfold page_url. rewrite bool_decide_eq_false_2 by done.
    by apply replace_token_at_end. }
  split; [apply Hpage |]. intros Hnm Heq.
  destruct (decide (n = 1)) as [-> | Hn]; destruct (decide (m = 1)) as [-> | Hm].
  - done.
  - rewrite (Hpage m Hm) in Heq. change (page_url (pre +:+ "index.html") 1)
      with (pre +:+ "index.html") in Heq.
    apply String.app_inj in Heq. discriminate Heq.
  - rewrite (Hpage n Hn) in Heq. change (page_url (pre +:+ "index.html") 1)
      with (pre +:+ "index.html") in Heq.
    apply String.app_inj in Heq. discriminate Heq.
  - rewrite (Hpage n Hn), (Hpage m Hm) in Heq.
    apply String.app_inj in Heq. apply (String.app_inj "page-") in Heq.
    apply append_inj_r in Heq. by apply pretty_Z_inj in Heq.
Qed.

Lemma page_addresses_distinct_witness :
  page_url travel_url 2 =
    "http://books.toscrape.com/catalogue/category/books/travel_2/" +:+ "page-" +:+ pretty 2 +:+ ".html" ∧
  page_url travel_url 2 ≠ page_url travel_url 3.
Proof.
  pose proof (page_addresses_distinct
                "http://books.toscrape.com/catalogue/category/books/travel_2/" 2 3
                ltac:(vm_compute; reflexivity)) as [H1 H2].
  split; [apply H1; lia | apply H2; lia].
Defined.

End PageAddresses.

(** ** The crawl of all categories *)

Section AllCategories.
Import Bs4 Scraper Fixtures.
Local Open Scope Z_scope.

Variable web : string → response.
Variable urljoin : string → string → string.

Lemma category_link_cases (a : node) :
  match category_link a with
  | Ok _ => get_attr "href" a ≠ None
  | Raise e => e = KeyError ∧ get_attr "href" a = None
  end.
Proof.
  unfold category_link, getitem. by destruct (get_attr "href" a).
Qed.

Lemma mapM_category_link (anchors : list node) :
  match mapM category_link anchors with
  | Ok links =>
      length links = length anchors ∧
      Forall (λ a, get_attr "href" a ≠ None) anchors
  | Raise e =>
      e = KeyError ∧ Exists (λ a, get_attr "href" a = None) anchors
  end.
Proof.
  induction anchors as [|a anchors IH]; [done |].
  change (mapM category_link (a :: anchors))
    with (category_link a ≫= λ y, mapM category_link anchors ≫= λ k, mret (y :: k)).
  pose proof (category_link_cases a) as Ha.
  destruct (category_link a) as [y|e]; simpl.
  - destruct (mapM category_link anchors) as [links|e]; simpl.
    + destruct IH as [Hlen Hall]. split; [by rewrite Hlen |]. by constructor.
    + destruct IH as [-> Hex]. split; [done | by right].
  - destruct Ha as [-> Ha]. split; [done | by left].
Qed.

Lemma scrape_links_bound (fuel : nat) (L : Z) (links : list string)
    (books_data : list book) (tr : list event) (bs : list book) :
  0 < L →
  scrape_links web urljoin fuel (Some L) links books_data = (tr, Returns bs) →
  ∃ new, bs = books_data ++ new ∧
         Z.of_nat (length new) ≤ Z.of_nat (length links) * L.
Proof.
  intros HL. revert books_data tr. induction links as [|c rest IH]; intros books_data tr H.
  - inversion H; subst. exists []. rewrite app_nil_r. split; [done | simpl; lia].
  - cbn [scrape_links] in H.
    destruct (scrape_category web urljoin fuel c (Some L)) as [tr1 [bs1| e |]] eqn:E1;
      [| done | done].
    cbn [mbind io_bind fst snd] in H.
    destruct (scrape_links web urljoin fuel (Some L) rest (books_data ++ bs1))
      as [tr2 o2] eqn:E2.
    cbn [fst snd] in H. inversion H; subst. clear H.
    destruct (IH _ _ E2) as (new & -> & Hb).
    destruct (scrape_pages_returns _ _ _ _ _ _ _ _ _ E1) as (new1 & -> & Hb1).
    specialize (Hb1 L eq_refl HL). cbn [fst snd app] in *.
    exists (new1 ++ new). split; [by rewrite app_assoc |].
    rewrite length_app. cbn [length]. lia.
Qed.

(** X14.  [scrape_all_categories] only appends: when it returns with a
    positive number [L] of books per category, its result is the former
    [books_data] followed by at most [L] new records for each category anchor
    of the root page; when the root page is not served, it returns
    [books_data] as it was after that single request. *)
Theorem all_categories_append (fuel : nat) (books_data : list book) (L : Z)
    (tr : list event) (bs : list book) :
  0 < L →
  scrape_all_categories web urljoin fuel books_data L = (tr, Returns bs) →
  ∃ new,
    bs = books_data ++ new ∧
    Z.of_nat (length new) ≤
      Z.of_nat (length (category_anchors (content (web base_url)))) * L ∧
    (status_code (web base_url) ≠ 200 → new = [] ∧ tr = [Get base_url]).
Proof.
  intros HL H. unfold scrape_all_categories in H.
  rewrite (bind_returns _ _ _ _ (get_soup_eq _ _)) in H.
  destruct (decide (status_code (web base_url) = 200)) as [Hs|Hs].
  - rewrite bool_decide_eq_true_2 in H by done.
    fold (category_anchors (content (web base_url))) in H.
    pose proof (mapM_category_link (category_anchors (content (web base_url)))) as Hm.
    destruct (mapM category_link _) as [links|e]; [| done].
    destruct Hm as [Hlen _]. cbn [lift mbind io_bind fst snd app] in H.
    destruct (scrape_links web urljoin fuel (Some L) links books_data) as [tr2 o2] eqn:E2.
    cbn [fst snd] in H. inversion H; subst. clear H.
    destruct (scrape_links_bound _ _ _ _ _ _ HL E2) as (new & -> & Hb).
    exists new. split; [done |]. split; [by rewrite <- Hlen | done].
  - rewrite bool_decide_eq_false_2 in H by done. inversion H; subst.
    exists []. rewrite app_nil_r. split; [done |]. split; [simpl; lia | done].
Qed.

(** X15.  When the root page is served and one of its category anchors has
    no [href], [scrape_all_categories] raises [KeyError] right after the
    request for the root page, before any category is crawled. *)
Theorem category_without_href (fuel : nat) (books_data : list book) (L : Z) :
  status_code (web base_url) = 200 →
  Exists (λ a, get_attr "href" a = None) (category_anchors (content (web base_url))) →
  scrape_all_categories web urljoin fuel books_data L = ([Get base_url], Raises KeyError).
Proof.
  intros Hs Hex. unfold scrape_all_categories.
  rewrite (bind_returns _ _ _ _ (get_soup_eq _ _)).
  rewrite bool_decide_eq_true_2 by done.
  fold (category_anchors (content (web base_url))).
  pose proof (mapM_category_link (category_anchors (content (web base_url)))) as Hm.
  destruct (mapM category_link _) as [links|e].
  - destruct Hm as [_ Hall]. apply Exists_exists in Hex as (a & Hin & Ha).
    rewrite Forall_forall in Hall. by destruct (Hall a Hin).
  - by destruct Hm as [-> _].
Qed.

(** X16.  A book of a listing page without link ends the loop before any
    request is sent for it: with [AttributeError] when it has no [h3], with
    [TypeError] when its [h3] has no anchor, with [KeyError] when the anchor
    has no [href]. *)
Theorem book_without_link (url : string) (limit : option Z) (b : node)
    (rest : list node) (st : progress) :
  limit_reached limit st.2 = false →
  (child_tag "h3" b = None →
     scrape_books web urljoin url limit (b :: rest) st = ([], Raises AttributeError)) ∧
  (∀ h3, child_tag "h3" b = Some h3 → child_tag "a" h3 = None →
     scrape_books web urljoin url limit (b :: rest) st = ([], Raises TypeError)) ∧
  (∀ h3 a, child_tag "h3" b = Some h3 → child_tag "a" h3 = Some a →
     get_attr "href" a = None →
     scrape_books web urljoin url limit (b :: rest) st = ([], Raises KeyError)).
Proof.
  intros Hl. split; [| split].
  - intros H. rewrite scrape_books_cons, Hl. unfold book_href. by rewrite H.
  - intros h3 H1 H2. rewrite scrape_books_cons, Hl. unfold book_href.
    rewrite H1. simpl. by rewrite H2.
  - intros h3 a H1 H2 H3. rewrite scrape_books_cons, Hl. unfold book_href.
    rewrite H1. simpl. rewrite H2. simpl. unfold getitem. by rewrite H3.
Qed.

End AllCategories.

Lemma all_categories_append_witness :
  ∃ new, light_book :: (travel_book <$> seq 1 10) = [] ++ new ∧
         Z.of_nat (length new) ≤ 2 * 10.
Proof.
  assert (scrape_all_categories shop_site_item_down urljoin_absolute 1 [] 10 =
          ([Get base_url; Get poetry_url; Get light_url; Sleep; Get priceless_url; Sleep;
            Get travel_url] ++ (seq 1 10 ≫= visit),
           Returns (light_book :: (travel_book <$> seq 1 10)))) as Hrun
    by (vm_compute; reflexivity).
  destruct (all_categories_append shop_site_item_down urljoin_absolute 1 [] 10 _ _
              ltac:(lia) Hrun) as (new & Hnew & Hb & _).
  exists new. split; [exact Hnew |].
  assert (length (category_anchors (content (shop_site_item_down base_url))) = 2%nat)
    as Hn by (vm_compute; reflexivity).
  rewrite Hn in Hb. exact Hb.
Defined.

Lemma category_without_href_witness :
  scrape_all_categories broken_shop urljoin_absolute 5 [] 10 =
  ([Get base_url], Raises KeyError).
Proof.
  apply (category_without_href broken_shop urljoin_absolute 5 [] 10).
  - vm_compute. reflexivity.
  - assert (category_anchors (content (broken_shop base_url)) =
            [el "a" [("href", "catalogue/category/books/travel_2/index.html")] [txt "Travel"];
             el "a" [("name", "poetry")] [txt "Poetry"]]) as ->
      by (vm_compute; reflexivity).
    right. left. vm_compute. reflexivity.
Defined.

Lemma book_without_link_witness :
  scrape_books travel_site urljoin_absolute travel_url None
    [el "article" [("class", "product_pod")] [el "h3" [] [txt "no link"]]] ([], 0%Z) =
  ([], Raises TypeError).
Proof.
  apply (proj1 (proj2 (book_without_link travel_site urljoin_absolute travel_url None
                         (el "article" [("class", "product_pod")] [el "h3" [] [txt "no link"]])
                         [] ([], 0%Z) ltac:(reflexivity)))
           (el "h3" [] [txt "no link"])); vm_compute; reflexivity.
Defined.

(** ** The analysis and the main program *)

Section AnalysisFacts.
Import Bs4 Scraper Fixtures Analysis.
Local Open Scope Z_scope.





(** X18.  When the root page of the site is not served the main program
    does not end normally: on either path (all categories, or the test path
    when the loop may visit at least one page) it sends the single request
    for the root, has no data to save or to analyse, and raises
    [AttributeError] when it reads the summary. *)
Theorem main_without_data (web : string → response)
    (urljoin : string → string → string) (fuel : nat) (all_categories : bool)
    (books_per_category : Z) :
  status_code (web base_url) ≠ 200 →
  main web urljoin (S fuel) all_categories books_per_category =
  ([Get base_url], Raises AttributeError).
Proof.
  intros Hs. unfold main. destruct all_categories.
  - unfold scrape_all_categories.
    rewrite (bind_returns _ _ _ _ (get_soup_eq _ _)).
    by rewrite bool_decide_eq_false_2.
  - by rewrite (empty_category web urljoin fuel base_url (Some 20) (or_introl Hs)).
Qed.

Lemma main_without_data_witness :
  main travel_site urljoin_absolute 1 false 10 = ([Get base_url], Raises AttributeError).
Proof.
  apply (main_without_data travel_site urljoin_absolute 0 false 10).
  vm_compute. discriminate.
Defined.

End AnalysisFacts.
